(** * Chat engine of pine_assistant: the session event listener

    A shallow embedding of [src/pine_assistant/chat.py]: the stale-event
    predicate [_is_stale_event], the inbound observer [handler] that
    [_listen] registers with the transport, the asynchronous generator
    [_listen] itself as a machine over its suspension points, and the
    filtering loop of [chat]. *)

From Stdlib Require Import String Ascii List ZArith QArith Bool Lia.
Import ListNotations.
Local Open Scope string_scope.
Local Open Scope list_scope.

(** ** Python values and exceptions *)

(** The values an envelope decoded from JSON can hold ([Any] in the
    annotations of the source).  A [dict] keeps its items as an association
    list read from the left. *)
#[warnings="-register-all"]
Inductive pyval : Type :=
| PNone
| PBool (b : bool)
| PInt (z : Z)
| PStr (s : string)
| PList (l : list pyval)
| PDict (d : list (string * pyval)).

(** Instances of [Exception] that the modelled code can meet. *)
Inductive exn : Type :=
| AttributeError
| TypeError
| ValueError
| TimeoutError
| OtherException (name : string).

Inductive result (A : Type) : Type :=
| Ok (a : A)
| Raise (e : exn).
Arguments Ok {A} a.
Arguments Raise {A} e.

(** [bool(v)]. *)
Definition truthy (v : pyval) : bool :=
  match v with
  | PNone => false
  | PBool b => b
  | PInt z => negb (z =? 0)%Z
  | PStr s => negb (s =? "")
  | PList l => match l with [] => false | _ => true end
  | PDict d => match d with [] => false | _ => true end
  end.

Fixpoint lookup (k : string) (d : list (string * pyval)) : option pyval :=
  match d with
  | [] => None
  | (k', v) :: d' => if k' =? k then Some v else lookup k d'
  end.

(** [v.get(k, default)]: only a dict has the attribute [get]. *)
Definition py_get (v : pyval) (k : string) (default : pyval) : result pyval :=
  match v with
  | PDict d => Ok (match lookup k d with Some x => x | None => default end)
  | _ => Raise AttributeError
  end.

(** [isinstance(v, dict)]. *)
Definition is_dict (v : pyval) : bool :=
  match v with PDict _ => true | _ => false end.

(** [v == s] for a string [s]. *)
Definition py_eq_str (v : pyval) (s : string) : bool :=
  match v with PStr s' => s' =? s | _ => false end.

(** [v in set_of_strings]: membership hashes [v], which fails for a list or
    a dict. *)
Definition py_in (v : pyval) (set : list string) : result bool :=
  match v with
  | PStr s => Ok (existsb (String.eqb s) set)
  | PList _ | PDict _ => Raise TypeError
  | _ => Ok false
  end.

(** ** Constants of the module *)

Definition TERMINAL_STATES : list string :=
  ["task_finished"; "task_cancelled"; "task_stale"].
Definition DEFAULT_IDLE_TIMEOUT_S : Q := 120.
Definition DEFAULT_RESPONSE_IDLE_TIMEOUT_S : Q := 2.

(** The wire names of [pine_assistant.models.events.S2CEvent], which the
    module imports; the listener is parametrised over them. *)
Record S2CEvent : Type := {
  SESSION_TEXT : string;
  SESSION_TEXT_PART : string;
  SESSION_FORM_TO_USER : string;
  SESSION_ASK_FOR_LOCATION : string;
  SESSION_TASK_READY : string;
  SESSION_TASK_FINISHED : string;
  SESSION_INTERACTIVE_AUTH_CONFIRMATION : string;
  SESSION_THREE_WAY_CALL : string;
  SESSION_REWARD : string;
  SESSION_INPUT_STATE : string;
  SESSION_STATE : string
}.

Definition SUBSTANTIVE_EVENTS (E : S2CEvent) : list string :=
  [ SESSION_TEXT E; SESSION_TEXT_PART E;
    SESSION_FORM_TO_USER E;
    SESSION_ASK_FOR_LOCATION E; SESSION_TASK_READY E;
    SESSION_TASK_FINISHED E; SESSION_INTERACTIVE_AUTH_CONFIRMATION E;
    SESSION_THREE_WAY_CALL E; SESSION_REWARD E ].

(** [event in SUBSTANTIVE_EVENTS] for a string [event]. *)
Definition substantive (E : S2CEvent) (event : string) : bool :=
  existsb (String.eqb event) (SUBSTANTIVE_EVENTS E).

(** ** ChatEvent *)

Record ChatEvent : Type := mkChatEvent {
  type : string;
  session_id : string;
  message_id : pyval;
  data : pyval;
  metadata : pyval
}.

(** ** The stale-event predicate *)

(** A [datetime]: the wall-clock fields as microseconds, and the UTC offset
    when the value is time-zone aware. *)
Record datetime : Type := {
  wall : Z;
  utcoffset : option Z
}.

(** [a < b] on datetimes: a naive and an aware value do not compare. *)
Definition dt_lt (a b : datetime) : result bool :=
  match utcoffset a, utcoffset b with
  | Some oa, Some ob => Ok (wall a - oa <? wall b - ob)%Z
  | None, None => Ok (wall a <? wall b)%Z
  | _, _ => Raise TypeError
  end.

(** [s.replace("Z", "+00:00")]: every occurrence is replaced. *)
Fixpoint replace_Z (s : string) : string :=
  match s with
  | EmptyString => EmptyString
  | String c s' =>
      if Ascii.eqb c "Z"%char then "+00:00" ++ replace_Z s'
      else String c (replace_Z s')
  end.

(** What the body of [_is_stale_event] can raise: [str.replace] is missing
    on a value that is not a string. *)
Definition py_replace_Z (v : pyval) : result string :=
  match v with
  | PStr s => Ok (replace_Z s)
  | _ => Raise AttributeError
  end.

Section StaleEvent.

(** [datetime.fromisoformat] of the standard library; [None] stands for
    its [ValueError]. *)
Variable fromisoformat : string -> option datetime.

(** The [try] block of [_is_stale_event], before its [except] clause. *)
Definition stale_try (ts_str : pyval) (cutoff : datetime) : result bool :=
  match py_replace_Z ts_str with
  | Raise e => Raise e
  | Ok s =>
      match fromisoformat s with
      | None => Raise ValueError
      | Some event_ts => dt_lt event_ts cutoff
      end
  end.

Definition _is_stale_event (event : ChatEvent) (cutoff : datetime)
  : result bool :=
  let meta := metadata event in
  if negb (is_dict meta) then Ok false
  else
    match py_get meta "timestamp" PNone with
    | Raise e => Raise e
    | Ok ts_str =>
        if negb (truthy ts_str) then Ok false
        else
          match stale_try ts_str cutoff with
          | Raise ValueError | Raise TypeError => Ok false
          | r => r
          end
    end.

(** The loop of [chat] over the values its [_listen] yields: a stale event
    is skipped, any other is yielded again; an exception of the predicate
    ends the sequence.  The sentinel [None] has no attribute [metadata]. *)
Fixpoint chat_loop (cutoff : datetime) (evs : list (option ChatEvent))
  : list (option ChatEvent) * option exn :=
  match evs with
  | [] => ([], None)
  | None :: _ => ([], Some AttributeError)
  | Some event :: evs' =>
      match _is_stale_event event cutoff with
      | Raise e => ([], Some e)
      | Ok true => chat_loop cutoff evs'
      | Ok false =>
          let (out, r) := chat_loop cutoff evs' in (Some event :: out, r)
      end
  end.

End StaleEvent.

(** ** The state of one listen call and its observer *)

(** The local variables of [_listen] that the closure [handler] shares with
    the generator body: the queue (the stop sentinel is [None]) and the two
    flags. *)
Record ListenState : Type := mkListenState {
  queue : list (option ChatEvent);
  done : bool;
  received_agent_response : bool
}.

Definition fresh_state : ListenState :=
  {| queue := []; done := false; received_agent_response := false |}.

(** Statements of the observer run in a state monad with exceptions in which
    what was written before an exception stays written. *)
Definition Obs (A : Type) : Type := ListenState -> ListenState * result A.

Definition ret {A} (a : A) : Obs A := fun st => (st, Ok a).
Definition bind {A B} (m : Obs A) (k : A -> Obs B) : Obs B :=
  fun st =>
    match m st with
    | (st', Ok a) => k a st'
    | (st', Raise e) => (st', Raise e)
    end.
Definition lift {A} (r : result A) : Obs A := fun st => (st, r).
Definition when (b : bool) (m : Obs unit) : Obs unit :=
  if b then m else ret tt.

Declare Scope obs_scope.
Delimit Scope obs_scope with obs.
Notation "x <- m ;; k" := (bind m (fun x => k))
  (at level 61, m at next level, right associativity) : obs_scope.
Notation "m ;; k" := (bind m (fun _ => k))
  (at level 61, right associativity) : obs_scope.

(** [queue.put_nowait(item)] on the unbounded queue. *)
Definition put_nowait (item : option ChatEvent) : Obs unit :=
  fun st =>
    ({| queue := queue st ++ [item]; done := done st;
        received_agent_response := received_agent_response st |}, Ok tt).
Definition set_done : Obs unit :=
  fun st =>
    ({| queue := queue st; done := true;
        received_agent_response := received_agent_response st |}, Ok tt).
Definition set_received_agent_response : Obs unit :=
  fun st =>
    ({| queue := queue st; done := done st;
        received_agent_response := true |}, Ok tt).
Definition get_received_agent_response : Obs bool :=
  fun st => (st, Ok (received_agent_response st)).

Section Handler.

Variable E : S2CEvent.
Variable session_id : string.

Local Open Scope obs_scope.

(** The closure [handler(event, raw)] of [_listen]. *)
Definition handler (event : string) (raw : pyval) : Obs unit :=
  payload <- lift (py_get raw "payload" (PDict [])) ;;
  p_session_id <- lift (py_get payload "session_id" PNone) ;;
  if truthy p_session_id && negb (py_eq_str p_session_id session_id)
  then ret tt
  else
    p_message_id <- lift (py_get payload "message_id" PNone) ;;
    p_data <- lift (py_get payload "data" PNone) ;;
    r_metadata <- lift (py_get raw "metadata" PNone) ;;
    put_nowait (Some (mkChatEvent event session_id
                        p_message_id p_data r_metadata)) ;;
    when (substantive E event) set_received_agent_response ;;
    when ((event =? SESSION_INPUT_STATE E) && is_dict p_data)
      (content <- lift (py_get p_data "content" PNone) ;;
       received <- get_received_agent_response ;;
       when (py_eq_str content "waiting_input" && received)
         (set_done ;; put_nowait None)) ;;
    when ((event =? SESSION_STATE E) && is_dict p_data)
      (state <- lift (py_get p_data "content" (PStr "")) ;;
       terminal <- lift (py_in state TERMINAL_STATES) ;;
       when terminal (set_done ;; put_nowait None)).

End Handler.

(** ** The generator [_listen] *)

(** What can be raised at a suspension point of the generator: the two
    signals that are no [Exception] (closing the generator, cancelling the
    task that runs it) and the instances of [Exception]. *)
Inductive thrown : Type :=
| GeneratorExit
| CancelledError
| Exception (e : exn).

(** How a call of the session-state query ends. *)
Inductive query_outcome : Type :=
| QReturn (session : pyval)
| QRaise (e : exn).

(** What the consumer, the event loop and the transport do to a listen call
    while it is suspended.  The observer runs inside the transport's
    dispatch, between two resumptions of the generator, so that any number
    of envelopes can be delivered at one suspension point.  Cancelling the
    task at an [await] is [Throw CancelledError], closing the generator at a
    [yield] is [Throw GeneratorExit].  The expiry of the timeout is not tied
    to an empty queue: whatever arrived is still in the queue after it. *)
Inductive stimulus : Type :=
| Next                                   (* the consumer asks for an item *)
| Throw (t : thrown)                     (* an exception raised at the
                                            suspension point *)
| Answer (o : query_outcome)             (* the awaited query completes *)
| Deliver (event : string) (raw : pyval) (* the transport calls its
                                            observers *)
| Wake                                   (* the awaited [queue.get()]
                                            completes *)
| Timeout.                               (* [asyncio.wait_for] times out *)

(** The four [yield] statements of [_listen]. *)
Inductive yield_site : Type :=
| AtPrecheck   (* line 150 *)
| AtRepoll     (* line 198 *)
| AtLoop       (* line 205 *)
| AtDrain.     (* line 209 *)

(** What a listen call does that its environment can see. *)
Inductive action : Type :=
| Yield (site : yield_site) (v : option ChatEvent)
| Query (sid : string)
| AddHandler
| RemoveHandler
| TimedOut (timeout : Q)
| Handled (event : string) (raw : pyval).

(** Where the generator is suspended. *)
Inductive pc : Type :=
| Start                         (* created, not started *)
| AwaitPrecheck                 (* line 148 *)
| YieldPrecheck                 (* line 150 *)
| AwaitGet (timeout : Q)        (* line 190 *)
| AwaitRepoll                   (* line 196 *)
| YieldRepoll                   (* line 198 *)
| YieldLoop                     (* line 205 *)
| YieldDrain                    (* line 209 *)
| Finished (raised : option thrown).

Record Listener : Type := mkListener {
  at_pc : pc;
  vars : ListenState;
  registered : bool   (* [handler] is among the transport's observers *)
}.

(** The fields of [ChatEngine] that [_listen] reads.  Of the query
    collaborator only its presence is a field: its answers come from the
    environment. *)
Record ChatEngine : Type := {
  check_session_state : bool;
  idle_timeout_s : Q;
  response_idle_timeout_s : Q
}.

(** [session.get("state") in TERMINAL_STATES], then [session["state"]]. *)
Definition terminal_state (session : pyval) : result (option pyval) :=
  match py_get session "state" PNone with
  | Raise e => Raise e
  | Ok state =>
      match py_in state TERMINAL_STATES with
      | Raise e => Raise e
      | Ok true => Ok (Some state)
      | Ok false => Ok None
      end
  end.

Section Listen.

Variable E : S2CEvent.
Variable self : ChatEngine.
Variable session_id : string.
Variable _skip_state_precheck : bool.

(** The event of lines 150 and 198. *)
Definition state_event (state : pyval) : ChatEvent :=
  mkChatEvent (SESSION_STATE E) session_id PNone
    (PDict [("content", state)]) PNone.

Definition suspend (p : pc) (st : ListenState) (acts : list action)
  : Listener * list action :=
  (mkListener p st true, acts).

(** Lines 210-211: the [finally] clause, then the generator is over. *)
Definition finally (raised : option thrown) (st : ListenState)
  (acts : list action) : Listener * list action :=
  (mkListener (Finished raised) st false, acts ++ [RemoveHandler]).

(** Lines 206-209: the drain loop, up to its next [yield]. *)
Fixpoint drain_loop (q : list (option ChatEvent)) (st : ListenState)
  : Listener * list action :=
  match q with
  | [] => finally None (mkListenState [] (done st)
                          (received_agent_response st)) []
  | evt :: q' =>
      match evt with
      | None => drain_loop q' st
      | Some _ =>
          suspend YieldDrain
            (mkListenState q' (done st) (received_agent_response st))
            [Yield AtDrain evt]
      end
  end.

Definition drain (st : ListenState) : Listener * list action :=
  drain_loop (queue st) st.

(** Lines 187-190: the loop test, the choice of the timeout and the
    timed [queue.get()]. *)
Definition loop_head (st : ListenState) : Listener * list action :=
  if done st then drain st
  else
    let timeout :=
      if received_agent_response st then response_idle_timeout_s self
      else idle_timeout_s self in
    suspend (AwaitGet timeout) st [].

(** Lines 203-205: [evt] was dequeued and [st] is what is left. *)
Definition dequeued (evt : option ChatEvent) (st : ListenState)
  : Listener * list action :=
  match evt with
  | None => drain st
  | Some _ => suspend YieldLoop st [Yield AtLoop evt]
  end.

(** Lines 191-202: the [except asyncio.TimeoutError] clause, up to the
    query. *)
Definition timed_out (st : ListenState) : Listener * list action :=
  if received_agent_response st then drain st
  else if check_session_state self
       then suspend AwaitRepoll st [Query session_id]
       else loop_head st.

(** Lines 196-202: the query of the timeout path has completed. *)
Definition repolled (o : query_outcome) (st : ListenState)
  : Listener * list action :=
  match o with
  | QReturn session =>
      match terminal_state session with
      | Ok (Some state) =>
          suspend YieldRepoll st [Yield AtRepoll (Some (state_event state))]
      | Ok None => loop_head st
      | Raise _ => loop_head st
      end
  | QRaise _ => loop_head st
  end.

(** Lines 155-184 and the first pass through the loop head. *)
Definition enter_active : Listener * list action :=
  let (s, acts) := loop_head fresh_state in (s, AddHandler :: acts).

(** Lines 148-153: the query of the precheck has completed. *)
Definition prechecked (o : query_outcome) : Listener * list action :=
  match o with
  | QReturn session =>
      match terminal_state session with
      | Ok (Some state) =>
          (mkListener YieldPrecheck fresh_state false,
           [Yield AtPrecheck (Some (state_event state))])
      | Ok None => enter_active
      | Raise _ => enter_active
      end
  | QRaise _ => enter_active
  end.

(** Line 146: the first resumption. *)
Definition begin : Listener * list action :=
  if negb _skip_state_precheck && check_session_state self
  then (mkListener AwaitPrecheck fresh_state false, [Query session_id])
  else enter_active.

Definition initial : Listener := mkListener Start fresh_state false.

Definition stay (s : Listener) : Listener * list action := (s, []).

(** One reaction of the listen call: the generator runs from its
    suspension point to the next one.  A stimulus that cannot occur at
    the current point leaves the call as it is. *)
Definition step (s : Listener) (x : stimulus) : Listener * list action :=
  let st := vars s in
  match x, at_pc s with
  | Deliver event raw, _ =>
      if registered s
      then (mkListener (at_pc s) (fst (handler E session_id event raw st))
              true, [Handled event raw])
      else stay s
  | Next, Start => begin
  | Next, YieldPrecheck => (mkListener (Finished None) st false, [])
  | Next, YieldRepoll => drain st
  | Next, YieldLoop => loop_head st
  | Next, YieldDrain => drain st
  | Answer o, AwaitPrecheck => prechecked o
  | Answer o, AwaitRepoll => repolled o st
  | Wake, AwaitGet _ =>
      match queue st with
      | [] => stay s
      | evt :: q' =>
          dequeued evt
            (mkListenState q' (done st) (received_agent_response st))
      end
  | Timeout, AwaitGet timeout =>
      let (s', acts) := timed_out st in (s', TimedOut timeout :: acts)
  | Throw t, Start => (mkListener (Finished (Some t)) st false, [])
  | Throw (Exception _), AwaitPrecheck => enter_active
  | Throw (Exception _), YieldPrecheck => enter_active
  | Throw t, AwaitPrecheck => (mkListener (Finished (Some t)) st false, [])
  | Throw t, YieldPrecheck => (mkListener (Finished (Some t)) st false, [])
  | Throw (Exception TimeoutError), AwaitGet timeout =>
      let (s', acts) := timed_out st in (s', TimedOut timeout :: acts)
  | Throw (Exception _), AwaitRepoll => loop_head st
  | Throw (Exception _), YieldRepoll => loop_head st
  | Throw t, AwaitGet _ => finally (Some t) st []
  | Throw t, AwaitRepoll => finally (Some t) st []
  | Throw t, YieldRepoll => finally (Some t) st []
  | Throw t, YieldLoop => finally (Some t) st []
  | Throw t, YieldDrain => finally (Some t) st []
  | _, _ => stay s
  end.

(** A listen call under a sequence of stimuli: where it ends up and what
    it did, in order. *)
Fixpoint run (xs : list stimulus) (s : Listener) : Listener * list action :=
  match xs with
  | [] => (s, [])
  | x :: xs' =>
      let (s1, acts1) := step s x in
      let (s2, acts2) := run xs' s1 in
      (s2, acts1 ++ acts2)
  end.

Definition _listen (xs : list stimulus) : Listener * list action :=
  run xs initial.

(** The consumer iterating with [async for] while the environment is
    silent: a pending [queue.get()] completes, a yielded item is followed
    by the request for the next one. *)
Definition pull (s : Listener) : stimulus :=
  match at_pc s with
  | AwaitGet _ => Wake
  | _ => Next
  end.

Fixpoint iterate (n : nat) (s : Listener) : Listener * list action :=
  match n with
  | O => (s, [])
  | S n' =>
      let (s1, acts1) := step s (pull s) in
      let (s2, acts2) := iterate n' s1 in
      (s2, acts1 ++ acts2)
  end.

End Listen.

(** The generator is over. *)
Definition finished (s : Listener) : bool :=
  match at_pc s with
  | Finished _ => true
  | _ => false
  end.

(** The transport delivering a batch of envelopes. *)
Definition deliveries (ds : list (string * pyval)) : list stimulus :=
  map (fun d => Deliver (fst d) (snd d)) ds.

(** The values yielded, in order. *)
Definition yields (acts : list action) : list (option ChatEvent) :=
  flat_map (fun a => match a with Yield _ v => [v] | _ => [] end) acts.

(** A choice of wire names on which the model can be run; nothing proved
    for all [E] depends on it. *)
Definition wire : S2CEvent := {|
  SESSION_TEXT := "session:text";
  SESSION_TEXT_PART := "session:text_part";
  SESSION_FORM_TO_USER := "session:form_to_user";
  SESSION_ASK_FOR_LOCATION := "session:ask_for_location";
  SESSION_TASK_READY := "session:task_ready";
  SESSION_TASK_FINISHED := "session:task_finished";
  SESSION_INTERACTIVE_AUTH_CONFIRMATION :=
    "session:interactive_auth_confirmation";
  SESSION_THREE_WAY_CALL := "session:three_way_call";
  SESSION_REWARD := "session:reward";
  SESSION_INPUT_STATE := "session:input_state";
  SESSION_STATE := "session:state"
|}.

(** The envelope that the tests build with [_raw]. *)
Definition envelope (sid : pyval) (d : pyval) (meta : pyval) : pyval :=
  PDict [("payload", PDict [("session_id", sid); ("data", d)]);
         ("metadata", meta)].

Definition content (s : string) : pyval := PDict [("content", PStr s)].

Definition engine (check : bool) : ChatEngine :=
  {| check_session_state := check;
     idle_timeout_s := DEFAULT_IDLE_TIMEOUT_S;
     response_idle_timeout_s := DEFAULT_RESPONSE_IDLE_TIMEOUT_S |}.

(** ** chat *)

(** [chat] listens with the precheck skipped and passes what is yielded
    through the stale filter. *)
Definition chat (fromisoformat : string -> option datetime) (E : S2CEvent)
  (self : ChatEngine) (sid : string) (cutoff : datetime)
  (xs : list stimulus) : list (option ChatEvent) * option exn :=
  chat_loop fromisoformat cutoff (yields (snd (_listen E self sid true xs))).

(** The cutoff that [chat] computes from [datetime.now(timezone.utc)], given
    here as microseconds: five seconds earlier, in UTC. *)
Definition chat_cutoff (now : Z) : datetime :=
  {| wall := now - 5 * 1000000; utcoffset := Some 0%Z |}.

(** ** Reading a run *)

Definition is_sentinel (v : option ChatEvent) : bool :=
  match v with None => true | Some _ => false end.

(** The items of a queue that are events. *)
Definition pending (q : list (option ChatEvent)) : list (option ChatEvent) :=
  filter (fun v => negb (is_sentinel v)) q.

(** The values yielded by the loop and by the drain phase, which come out of
    the queue. *)
Definition observer_yields (acts : list action) : list (option ChatEvent) :=
  flat_map (fun a =>
              match a with
              | Yield AtLoop v | Yield AtDrain v => [v]
              | _ => []
              end) acts.

Definition adds (acts : list action) : nat :=
  length (filter (fun a => match a with AddHandler => true | _ => false end)
            acts).

Definition removes (acts : list action) : nat :=
  length (filter (fun a => match a with RemoveHandler => true | _ => false end)
            acts).

(** [d.get(k)] on the items of a dict. *)
Definition item (d : list (string * pyval)) (k : string) : pyval :=
  match lookup k d with Some x => x | None => PNone end.

(** The session filter of the observer: the event that [handler] builds for
    an envelope, unless the envelope carries a session id that is truthy and
    differs from the requested one (or has no dict as its payload). *)
Definition session_filter (sid event : string) (raw : pyval)
  : option ChatEvent :=
  match py_get raw "payload" (PDict []) with
  | Ok (PDict p) =>
      if truthy (item p "session_id")
         && negb (py_eq_str (item p "session_id") sid)
      then None
      else
        Some (mkChatEvent event sid (item p "message_id") (item p "data")
                (match py_get raw "metadata" PNone with
                 | Ok m => m
                 | Raise _ => PNone
                 end))
  | _ => None
  end.

Definition opt_item (o : option ChatEvent) : list (option ChatEvent) :=
  match o with
  | Some ev => [Some ev]
  | None => []
  end.

(** Whether the observer sets [done] and enqueues the sentinel for an event
    of type [event] with payload data [d], [received] being the flag once
    the type of the event has been looked at. *)
Definition stop_signal (E : S2CEvent) (event : string) (d : pyval)
  (received : bool) : bool :=
  match d with
  | PDict c =>
      ((event =? SESSION_INPUT_STATE E)
       && py_eq_str (item c "content") "waiting_input" && received)
      || ((event =? SESSION_STATE E)
          && match lookup "content" c with
             | Some (PStr s) => existsb (String.eqb s) TERMINAL_STATES
             | _ => false
             end)
  | _ => false
  end.

(** The state in which the observer leaves the listen call, in closed form
    (see [handler_state]). *)
Definition handled (E : S2CEvent) (sid event : string) (raw : pyval)
  (st : ListenState) : ListenState :=
  match session_filter sid event raw with
  | None => st
  | Some ev =>
      let received := received_agent_response st || substantive E event in
      let stop := stop_signal E event (data ev) received in
      {| queue := queue st ++ Some ev :: (if stop then [None] else []);
         done := done st || stop;
         received_agent_response := received |}
  end.

(** The events that passed the session filter, in the order in which the
    transport delivered them to the observer. *)
Definition accepted (sid : string) (acts : list action)
  : list (option ChatEvent) :=
  flat_map (fun a =>
              match a with
              | Handled event raw =>
                  match session_filter sid event raw with
                  | Some ev => [Some ev]
                  | None => []
                  end
              | _ => []
              end) acts.

Definition yielded_for (sid : string) (v : option ChatEvent) : Prop :=
  match v with
  | Some ev => session_id ev = sid
  | None => False
  end.

Definition queued_for (sid : string) (v : option ChatEvent) : Prop :=
  match v with
  | Some ev => session_id ev = sid
  | None => True
  end.

(** What holds of a listen call and of what it has done so far, at every
    suspension point. *)
Record Inv (sid : string) (s : Listener) (l : list action) : Prop := {
  inv_yields : Forall (yielded_for sid) (yields l);
  inv_queue : Forall (queued_for sid) (queue (vars s));
  inv_order :
    observer_yields l ++ pending (queue (vars s)) = accepted sid l;
  inv_sentinel :
    done (vars s) = false ->
    Forall (fun v => is_sentinel v = false) (queue (vars s));
  inv_phase :
    match at_pc s with
    | Start | AwaitPrecheck | YieldPrecheck =>
        registered s = false /\ vars s = fresh_state /\
        adds l = 0%nat /\ removes l = 0%nat
    | Finished r =>
        registered s = false /\ removes l = adds l /\ (adds l <= 1)%nat /\
        (r = None -> queue (vars s) = [])
    | _ =>
        registered s = true /\ adds l = 1%nat /\ removes l = 0%nat
    end
}.

(** The suspension points inside the [try] block with the [finally]
    clause. *)
Definition active (p : pc) : bool :=
  match p with
  | AwaitGet _ | AwaitRepoll | YieldRepoll | YieldLoop | YieldDrain => true
  | _ => false
  end.

(** A listen call between the registration of its observer and the
    [finally] clause. *)
Definition Active (sid : string) (st : ListenState) (l : list action) : Prop :=
  Inv sid (mkListener YieldLoop st true) l.

(** How the observer returns, in closed form (see [handler_result]). *)
Definition handled_result (E : S2CEvent) (sid event : string) (raw : pyval)
  : result unit :=
  match py_get raw "payload" (PDict []) with
  | Ok (PDict _) =>
      match session_filter sid event raw with
      | Some ev =>
          match data ev with
          | PDict c =>
              if event =? SESSION_STATE E
              then match py_in (match lookup "content" c with
                                | Some x => x
                                | None => PStr ""
                                end) TERMINAL_STATES with
                   | Raise e => Raise e
                   | Ok _ => Ok tt
                   end
              else Ok tt
          | _ => Ok tt
          end
      | None => Ok tt
      end
  | _ => Raise AttributeError
  end.

(** The timeout of a pending [queue.get()] is the idle timeout, or the
    response-idle timeout with a substantive response received. *)
Definition timeout_chosen (self : ChatEngine) (s : Listener) : Prop :=
  match at_pc s with
  | AwaitGet t =>
      t = idle_timeout_s self \/
      (t = response_idle_timeout_s self /\
       received_agent_response (vars s) = true)
  | _ => True
  end.

(** The suspension points of the precheck, and those of the query behind a
    timeout. *)
Definition prechecking (p : pc) : bool :=
  match p with
  | AwaitPrecheck | YieldPrecheck => true
  | _ => false
  end.

Definition repolling (p : pc) : bool :=
  match p with
  | AwaitRepoll | YieldRepoll => true
  | _ => false
  end.

(** The actions behind which there is the query collaborator: its call and
    the yield of an event built from its answer. *)
Definition from_query (a : action) : bool :=
  match a with
  | Query _ | Yield AtPrecheck _ | Yield AtRepoll _ => true
  | _ => false
  end.

Definition from_precheck (a : action) : bool :=
  match a with
  | Yield AtPrecheck _ => true
  | _ => false
  end.

(** ** The outbound message *)

(** [a or b]. *)
Definition py_or (a b : pyval) : pyval := if truthy a then a else b.

(** [v is None]. *)
Definition is_none (v : pyval) : bool :=
  match v with PNone => true | _ => false end.

(** [d[k] = v] on the items of a dict: the value of an existing key is
    replaced where it stands, a new key comes last. *)
Fixpoint setitem (k : string) (v : pyval) (d : list (string * pyval))
  : list (string * pyval) :=
  match d with
  | [] => [(k, v)]
  | (k', v') :: d' =>
      if k' =? k then (k, v) :: d' else (k', v') :: setitem k v d'
  end.

(** [_build_message_data]; [client_now_date] is the value of
    [datetime.now().isoformat()] at the call. *)
Definition _build_message_data (client_now_date : string) (content : string)
  (attachments referenced_sessions action : pyval)
  : list (string * pyval) :=
  let data :=
    [ ("content", PStr content);
      ("attachments", py_or attachments (PList []));
      ("referenced_sessions", py_or referenced_sessions (PList []));
      ("client_now_date", PStr client_now_date) ] in
  if negb (is_none action) then setitem "action" action data else data.

(** ** Lemmas on the readers *)

Lemma yields_app (l1 l2 : list action) :
  yields (l1 ++ l2) = yields l1 ++ yields l2.
Proof. apply flat_map_app. Qed.

Lemma observer_yields_app (l1 l2 : list action) :
  observer_yields (l1 ++ l2) = observer_yields l1 ++ observer_yields l2.
Proof. apply flat_map_app. Qed.

Lemma accepted_app (sid : string) (l1 l2 : list action) :
  accepted sid (l1 ++ l2) = accepted sid l1 ++ accepted sid l2.
Proof. apply flat_map_app. Qed.

Lemma adds_app (l1 l2 : list action) :
  adds (l1 ++ l2) = (adds l1 + adds l2)%nat.
Proof. unfold adds. now rewrite filter_app, length_app. Qed.

Lemma removes_app (l1 l2 : list action) :
  removes (l1 ++ l2) = (removes l1 + removes l2)%nat.
Proof. unfold removes. now rewrite filter_app, length_app. Qed.

Lemma pending_app (q1 q2 : list (option ChatEvent)) :
  pending (q1 ++ q2) = pending q1 ++ pending q2.
Proof. apply filter_app. Qed.

Create Rewrite HintDb readers.
#[local] Hint Rewrite yields_app observer_yields_app accepted_app adds_app
  removes_app pending_app app_nil_r : readers.

(** ** The effect of the observer *)

Ltac run_obs :=
  cbv [bind lift ret when put_nowait set_done set_received_agent_response
       get_received_agent_response] in *.

Lemma handler_state (E : S2CEvent) (sid event : string) (raw : pyval)
  (st : ListenState) :
  fst (handler E sid event raw st) = handled E sid event raw st.
Proof.
  destruct st as [q d r].
  unfold handler, handled, session_filter, stop_signal.
  destruct raw as [| | | | |rw]; try reflexivity.
  cbn [py_get]. run_obs.
  destruct (match lookup "payload" rw with Some x => x | None => PDict [] end) as [| | | | |p]; try reflexivity.
  cbn [py_get]. fold (item p "session_id").
  destruct (truthy _ && negb _); [reflexivity|].
  fold (item p "data"). cbn [data].
  destruct (substantive E event), (event =? SESSION_INPUT_STATE E), (event =? SESSION_STATE E), (item p "data") as [| | | | |c]; cbn.
  all: destruct d, r; cbn -[existsb TERMINAL_STATES]; try reflexivity.
  all: unfold item; destruct (lookup "content" c) as [[| | |s| |]|];
    cbn -[existsb TERMINAL_STATES]; rewrite <- ?app_assoc; try reflexivity.
  all: try (destruct (s =? "waiting_input") eqn:Hw;
            [ apply String.eqb_eq in Hw; subst s; cbn;
              rewrite <- ?app_assoc; reflexivity | ]).
  all: cbn;
    destruct (s =? "task_finished"), (s =? "task_cancelled"),
      (s =? "task_stale"); cbn; rewrite <- ?app_assoc; reflexivity.
Qed.

(** ** The invariant is kept *)

Lemma session_filter_sid (sid event : string) (raw : pyval) (ev : ChatEvent) :
  session_filter sid event raw = Some ev -> session_id ev = sid.
Proof.
  unfold session_filter.
  destruct (py_get raw "payload" (PDict [])) as [[| | | | |p]|]; try discriminate.
  destruct (truthy _ && negb _); [discriminate|].
  intros [= <-]. reflexivity.
Qed.

Ltac inv_open H :=
  let Hy := fresh "Hy" in
  let Hq := fresh "Hq" in
  let Ho := fresh "Ho" in
  let Hs := fresh "Hs" in
  let Hp := fresh "Hp" in
  destruct H as [Hy Hq Ho Hs Hp];
  cbn [at_pc vars registered queue done received_agent_response] in Hy, Hq, Ho, Hs, Hp.

Ltac inv_close :=
  constructor;
  cbn [at_pc vars registered queue done received_agent_response fst snd];
  autorewrite with readers; cbn; rewrite ?Nat.add_0_r.

Section Invariant.

Variable E : S2CEvent.
Variable self : ChatEngine.
Variable sid : string.
Variable skip : bool.

Lemma Active_at (p : pc) (st : ListenState) (l : list action) :
  active p = true ->
  Active sid st l -> Inv sid (mkListener p st true) l.
Proof.
  intros Hp H. inv_open H.
  constructor; cbn [at_pc vars registered]; auto.
  destruct p; try discriminate; auto.
Qed.

Lemma Active_of (s : Listener) (l : list action) :
  Inv sid s l -> active (at_pc s) = true -> Active sid (vars s) l.
Proof.
  intros H Hp. destruct s as [p st r]. inv_open H.
  constructor; cbn [at_pc vars registered]; auto.
  destruct p; try discriminate; tauto.
Qed.

Lemma Active_registered (s : Listener) (l : list action) :
  active (at_pc s) = true -> Inv sid s l -> registered s = true.
Proof.
  intros Hp H. destruct s as [p st r]. inv_open H.
  destruct p; try discriminate; tauto.
Qed.

Lemma Inv_TimedOut (s : Listener) (l : list action) (t : Q) :
  Inv sid s l -> Inv sid s (l ++ [TimedOut t]).
Proof.
  intros H. inv_open H. inv_close; auto.
Qed.

Lemma Inv_Query (s : Listener) (l : list action) (q : string) :
  Inv sid s l -> Inv sid s (l ++ [Query q]).
Proof.
  intros H. inv_open H. inv_close; auto.
Qed.

Lemma Active_handled (st : ListenState) (l : list action)
  (event : string) (raw : pyval) :
  Active sid st l ->
  Active sid (handled E sid event raw st) (l ++ [Handled event raw]).
Proof.
  intros H. inv_open H. unfold handled.
  destruct (session_filter sid event raw) as [ev|] eqn:Hf.
  - pose proof (session_filter_sid _ _ _ _ Hf) as Hsid.
    inv_close; rewrite ?Hf; cbn; auto.
    + apply Forall_app. split; auto.
      constructor; [exact Hsid|]. destruct (stop_signal _ _ _ _); repeat constructor.
    + rewrite <- Ho, <- app_assoc. f_equal.
      destruct (stop_signal _ _ _ _); reflexivity.
    + intros Hd. apply orb_false_iff in Hd as [Hd Hstop]. rewrite Hstop.
      apply Forall_app. split; auto.
  - inv_close; rewrite ?Hf; cbn; autorewrite with readers; auto.
Qed.

Lemma finally_keeps (t : thrown) (st : ListenState) (l : list action) :
  Active sid st l ->
  Inv sid (fst (finally (Some t) st [])) (l ++ snd (finally (Some t) st [])).
Proof.
  intros H. inv_open H. unfold finally. inv_close; auto.
  destruct Hp as (_ & Ha & Hr).
  repeat split; try lia. discriminate.
Qed.

Lemma drain_loop_keeps (q : list (option ChatEvent)) (st : ListenState)
  (l : list action) :
  Active sid (mkListenState q (done st) (received_agent_response st)) l ->
  Inv sid (fst (drain_loop q st)) (l ++ snd (drain_loop q st)).
Proof.
  induction q as [|[e|] q IH]; intros H; cbn [drain_loop].
  - inv_open H. unfold finally. inv_close; auto.
    + cbn in Ho. now rewrite app_nil_r in Ho.
    + destruct Hp as (_ & Ha & Hr). repeat split; auto; lia.
  - inv_open H. unfold suspend. inv_close; auto.
    + apply Forall_app. split; auto. constructor; auto.
      now inversion Hq.
    + now inversion Hq.
    + rewrite <- Ho, <- app_assoc. reflexivity.
    + intros Hd. specialize (Hs Hd). now inversion Hs.
  - apply IH. inv_open H. inv_close; auto.
    + now inversion Hq.
    + intros Hd. specialize (Hs Hd). inversion Hs. discriminate.
Qed.

Lemma drain_keeps (st : ListenState) (l : list action) :
  Active sid st l ->
  Inv sid (fst (drain st)) (l ++ snd (drain st)).
Proof.
  intros H. apply drain_loop_keeps. now destruct st.
Qed.

Lemma loop_head_keeps (st : ListenState) (l : list action) :
  Active sid st l ->
  Inv sid (fst (loop_head self st)) (l ++ snd (loop_head self st)).
Proof.
  intros H. unfold loop_head. destruct (done st).
  - now apply drain_keeps.
  - cbn [suspend fst snd]. rewrite app_nil_r. now apply Active_at.
Qed.

Lemma dequeued_keeps (evt : option ChatEvent) (q : list (option ChatEvent))
  (st : ListenState) (l : list action) :
  Active sid (mkListenState (evt :: q) (done st)
                (received_agent_response st)) l ->
  let st' := mkListenState q (done st) (received_agent_response st) in
  Inv sid (fst (dequeued evt st')) (l ++ snd (dequeued evt st')).
Proof.
  intros H st'. unfold dequeued. destruct evt as [e|].
  - inv_open H. unfold suspend. inv_close; auto.
    + apply Forall_app. split; auto. constructor; auto.
      now inversion Hq.
    + now inversion Hq.
    + rewrite <- Ho, <- app_assoc. reflexivity.
    + intros Hd. specialize (Hs Hd). now inversion Hs.
  - apply drain_keeps. inv_open H. inv_close; auto.
    + now inversion Hq.
    + intros Hd. specialize (Hs Hd). inversion Hs. discriminate.
Qed.

Lemma timed_out_keeps (st : ListenState) (l : list action) :
  Active sid st l ->
  Inv sid (fst (timed_out self sid st)) (l ++ snd (timed_out self sid st)).
Proof.
  intros H. unfold timed_out.
  destruct (received_agent_response st).
  - now apply drain_keeps.
  - destruct (check_session_state self).
    + cbn [suspend fst snd]. apply Inv_Query. now apply Active_at.
    + now apply loop_head_keeps.
Qed.

Lemma repolled_keeps (o : query_outcome) (st : ListenState)
  (l : list action) :
  Active sid st l ->
  Inv sid (fst (repolled E self sid o st))
    (l ++ snd (repolled E self sid o st)).
Proof.
  intros H. unfold repolled.
  destruct o as [session|e]; [|now apply loop_head_keeps].
  destruct (terminal_state session) as [[state|]|];
    try now apply loop_head_keeps.
  inv_open H. unfold suspend. inv_close; auto.
  apply Forall_app. split; auto. constructor; auto. reflexivity.
Qed.

Lemma enter_active_keeps (s : Listener) (l : list action) :
  at_pc s = Start \/ at_pc s = AwaitPrecheck \/ at_pc s = YieldPrecheck ->
  Inv sid s l ->
  Inv sid (fst (enter_active self)) (l ++ snd (enter_active self)).
Proof.
  intros Hpc H. unfold enter_active, loop_head. cbn.
  inv_open H.
  assert (Hpre : vars s = fresh_state /\ adds l = 0%nat /\ removes l = 0%nat)
    by (destruct Hpc as [Hc|[Hc|Hc]]; rewrite Hc in Hp; tauto).
  destruct Hpre as (Hv & Ha & Hr). rewrite Hv in *. cbn in *.
  rewrite app_nil_r in Ho.
  inv_close; auto. repeat split; lia.
Qed.

Lemma prechecked_keeps (o : query_outcome) (s : Listener)
  (l : list action) :
  at_pc s = AwaitPrecheck ->
  Inv sid s l ->
  Inv sid (fst (prechecked E self sid o))
    (l ++ snd (prechecked E self sid o)).
Proof.
  intros Hpc H. unfold prechecked.
  destruct o as [session|e]; [|apply (enter_active_keeps s); auto].
  destruct (terminal_state session) as [[state|]|];
    try (apply (enter_active_keeps s); auto).
  inv_open H. rewrite Hpc in Hp. destruct Hp as (_ & Hv & Ha & Hr).
  rewrite Hv in *. cbn in *. rewrite app_nil_r in Ho.
  inv_close; auto.
  apply Forall_app. split; auto. constructor; auto. reflexivity.
Qed.

Lemma begin_keeps (s : Listener) (l : list action) :
  at_pc s = Start ->
  Inv sid s l ->
  Inv sid (fst (begin self sid skip)) (l ++ snd (begin self sid skip)).
Proof.
  intros Hpc H. unfold begin.
  destruct (negb skip && check_session_state self);
    [|apply (enter_active_keeps s); auto].
  inv_open H. rewrite Hpc in Hp. destruct Hp as (_ & Hv & Ha & Hr).
  rewrite Hv in *. cbn in *. rewrite app_nil_r in Ho.
  inv_close; auto.
Qed.


Lemma Inv_stay (s : Listener) (l : list action) :
  Inv sid s l -> Inv sid (fst (stay s)) (l ++ snd (stay s)).
Proof. cbn. now rewrite app_nil_r. Qed.

Lemma registered_active (s : Listener) (l : list action) :
  Inv sid s l -> registered s = true -> active (at_pc s) = true.
Proof.
  intros H Hr. inv_open H.
  destruct (at_pc s); cbn; auto; destruct Hp as [Hp _]; congruence.
Qed.

Lemma deliver_keeps (s : Listener) (l : list action)
  (event : string) (raw : pyval) :
  Inv sid s l ->
  Inv sid (fst (step E self sid skip s (Deliver event raw)))
    (l ++ snd (step E self sid skip s (Deliver event raw))).
Proof.
  intros H. cbn [step].
  destruct (registered s) eqn:Hr; [|now apply Inv_stay].
  pose proof (registered_active s l H Hr) as Ha.
  cbn [fst snd]. rewrite handler_state.
  apply Active_at; auto. apply Active_handled. now apply Active_of.
Qed.

Lemma timeout_keeps (st : ListenState) (l : list action) (t : Q) :
  Active sid st l ->
  Inv sid (fst (let (s', acts) := timed_out self sid st in
                (s', TimedOut t :: acts)))
    (l ++ snd (let (s', acts) := timed_out self sid st in
               (s', TimedOut t :: acts))).
Proof.
  intros H.
  pose proof (timed_out_keeps st (l ++ [TimedOut t])) as K.
  destruct (timed_out self sid st) as [s' acts]. cbn [fst snd] in *.
  rewrite <- app_assoc in K. apply K.
  now apply (Inv_TimedOut (mkListener YieldLoop st true)).
Qed.

Lemma throw_pre_keeps (s : Listener) (l : list action) (t : thrown) :
  at_pc s = Start \/ at_pc s = AwaitPrecheck \/ at_pc s = YieldPrecheck ->
  Inv sid s l ->
  Inv sid (mkListener (Finished (Some t)) (vars s) false) (l ++ []).
Proof.
  intros Hpc H. inv_open H.
  assert (Hpre : adds l = 0%nat /\ removes l = 0%nat)
    by (destruct Hpc as [Hc|[Hc|Hc]]; rewrite Hc in Hp; tauto).
  rewrite app_nil_r. constructor; cbn; auto.
  repeat split; try lia. discriminate.
Qed.

Lemma step_keeps (s : Listener) (l : list action) (x : stimulus) :
  Inv sid s l ->
  Inv sid (fst (step E self sid skip s x))
    (l ++ snd (step E self sid skip s x)).
Proof.
  intros H.
  destruct x as [|t|o|event raw| |]; [| | |now apply deliver_keeps| |].
  - (* Next *)
    destruct s as [p st r]. destruct p; try now apply Inv_stay.
    + now apply (begin_keeps (mkListener Start st r)).
    + cbn. rewrite app_nil_r. inv_open H. destruct Hp as (_ & Hv & Ha & Hr).
      subst st. constructor; cbn; auto. repeat split; auto; lia.
    + apply drain_keeps. now apply (Active_of _ _ H eq_refl).
    + apply loop_head_keeps. now apply (Active_of _ _ H eq_refl).
    + apply drain_keeps. now apply (Active_of _ _ H eq_refl).
  - (* Throw *)
    destruct s as [p st r].
    destruct t as [| |e]; [ | |destruct e]; destruct p.
    all: first
      [ now apply Inv_stay
      | cbn; apply (throw_pre_keeps (mkListener Start st r)); cbn; now auto
      | cbn; apply (throw_pre_keeps (mkListener AwaitPrecheck st r));
        cbn; now auto
      | cbn; apply (throw_pre_keeps (mkListener YieldPrecheck st r));
        cbn; now auto
      | apply (enter_active_keeps (mkListener AwaitPrecheck st r));
        cbn; now auto
      | apply (enter_active_keeps (mkListener YieldPrecheck st r));
        cbn; now auto
      | pose proof (Active_of _ _ H eq_refl) as Ha;
        first [ now apply finally_keeps
              | now apply loop_head_keeps
              | now apply timeout_keeps ] ].
  - (* Answer *)
    destruct s as [p st r]. destruct p; try now apply Inv_stay.
    + now apply (prechecked_keeps o (mkListener AwaitPrecheck st r)).
    + apply repolled_keeps. now apply (Active_of _ _ H eq_refl).
  - (* Wake *)
    destruct s as [p st r]. destruct p; try now apply Inv_stay.
    cbn [step vars at_pc].
    destruct (queue st) as [|evt q] eqn:Hq; [now apply Inv_stay|].
    apply dequeued_keeps.
    pose proof (Active_of _ _ H eq_refl) as Ha. cbn in Ha.
    destruct st as [q0 d0 r0]. cbn in *. now subst q0.
  - (* Timeout *)
    destruct s as [p st r]. destruct p; try now apply Inv_stay.
    apply timeout_keeps. now apply (Active_of _ _ H eq_refl).
Qed.

Lemma run_keeps (xs : list stimulus) (s : Listener) (l : list action) :
  Inv sid s l ->
  Inv sid (fst (run E self sid skip xs s))
    (l ++ snd (run E self sid skip xs s)).
Proof.
  revert s l. induction xs as [|x xs IH]; intros s l H; cbn [run].
  - cbn. now rewrite app_nil_r.
  - pose proof (step_keeps s l x H) as K.
    destruct (step E self sid skip s x) as [s1 acts1]. cbn [fst snd] in K.
    specialize (IH s1 (l ++ acts1) K).
    destruct (run E self sid skip xs s1) as [s2 acts2]. cbn [fst snd] in *.
    now rewrite app_assoc.
Qed.

Lemma Inv_initial : Inv sid initial [].
Proof. constructor; cbn; auto. Qed.

Lemma listen_keeps (xs : list stimulus) :
  Inv sid (fst (_listen E self sid skip xs))
    (snd (_listen E self sid skip xs)).
Proof. exact (run_keeps xs initial [] Inv_initial). Qed.

End Invariant.

(** ** Runs *)

Section Runs.

Variable E : S2CEvent.
Variable self : ChatEngine.
Variable sid : string.
Variable skip : bool.

Lemma run_app (xs ys : list stimulus) (s : Listener) :
  run E self sid skip (xs ++ ys) s
  = (fst (run E self sid skip ys (fst (run E self sid skip xs s))),
     snd (run E self sid skip xs s)
     ++ snd (run E self sid skip ys (fst (run E self sid skip xs s)))).
Proof.
  revert s. induction xs as [|x xs IH]; intros s; cbn [run app].
  - cbn. now destruct (run E self sid skip ys s).
  - destruct (step E self sid skip s x) as [s1 a1].
    rewrite IH.
    destruct (run E self sid skip xs s1) as [s2 a2]. cbn [fst snd].
    now rewrite app_assoc.
Qed.

(** An envelope changes nothing while no observer is registered. *)
Lemma run_deliveries_unregistered (ds : list (string * pyval))
  (s : Listener) :
  registered s = false ->
  run E self sid skip (deliveries ds) s = (s, []).
Proof.
  intros Hr. induction ds as [|[event raw] ds IH]; [reflexivity|].
  cbn [deliveries map run step fst snd]. rewrite Hr. cbn [stay].
  fold (deliveries ds). now rewrite IH.
Qed.

Lemma iterate_finished (n : nat) (s : Listener) :
  finished s = true -> iterate E self sid skip n s = (s, []).
Proof.
  intros Hf. induction n as [|n IH]; [reflexivity|].
  cbn [iterate]. destruct s as [p st r]. destruct p; try discriminate.
  cbn. cbn in IH. now rewrite IH.
Qed.

(** The drain loop either ends the generator normally or yields an event
    and leaves a shorter queue. *)
Lemma drain_loop_result (q : list (option ChatEvent)) (st : ListenState) :
  at_pc (fst (drain_loop q st)) = Finished None \/
  (at_pc (fst (drain_loop q st)) = YieldDrain /\
   (length (queue (vars (fst (drain_loop q st)))) < length q)%nat).
Proof.
  induction q as [|[e|] q IH]; cbn [drain_loop].
  - now left.
  - right. cbn. split; [reflexivity|lia].
  - destruct IH as [IH|[IH1 IH2]]; [now left|right].
    split; [exact IH1|cbn; lia].
Qed.



Lemma iterate_keeps (n : nat) (s : Listener) (l : list action) :
  Inv sid s l ->
  Inv sid (fst (iterate E self sid skip n s))
    (l ++ snd (iterate E self sid skip n s)).
Proof.
  revert s l. induction n as [|n IH]; intros s l H; cbn [iterate].
  - cbn. now rewrite app_nil_r.
  - pose proof (step_keeps E self sid skip s l (pull s) H) as K.
    destruct (step E self sid skip s (pull s)) as [s1 a1].
    cbn [fst snd] in K. specialize (IH s1 _ K).
    destruct (iterate E self sid skip n s1) as [s2 a2].
    cbn [fst snd] in *. now rewrite app_assoc.
Qed.

End Runs.

(** ** What the consumer gets by iterating *)

Section Progress.

Variable E : S2CEvent.
Variable self : ChatEngine.
Variable sid : string.
Variable skip : bool.

(** Draining and then iterating yields what was queued, in order, and
    ends the generator normally with an empty queue. *)
Lemma drain_iterate_yields (q : list (option ChatEvent)) :
  forall (st : ListenState) (n : nat),
    (length q <= n)%nat ->
    let r1 := drain_loop q st in
    let r2 := iterate E self sid skip n (fst r1) in
    yields (snd r1 ++ snd r2) = pending q /\
    observer_yields (snd r1 ++ snd r2) = pending q /\
    queue (vars (fst r2)) = [] /\
    at_pc (fst r2) = Finished None.
Proof.
  induction q as [|[e|] q IH]; intros st n Hn; cbn [drain_loop].
  - unfold finally. cbn [fst snd]. rewrite iterate_finished by reflexivity.
    repeat split.
  - destruct n as [|n]; [cbn in Hn; lia|].
    unfold suspend. cbn [fst snd iterate pull at_pc step vars].
    unfold drain. cbn [queue].
    specialize (IH (mkListenState q (done st) (received_agent_response st))
                  n ltac:(cbn in Hn; lia)).
    cbn zeta in IH.
    destruct (drain_loop q _) as [s1 a1]. cbn [fst snd] in IH |- *.
    destruct (iterate E self sid skip n s1) as [s2 a2].
    cbn [fst snd] in IH |- *.
    destruct IH as (H1 & H2 & H3 & H4).
    split; [|split; [|split]]; auto.
    + cbn. unfold pending in *. cbn. f_equal. exact H1.
    + cbn. unfold pending in *. cbn. f_equal. exact H2.
  - exact (IH st n ltac:(cbn in Hn; lia)).
Qed.

Lemma iterate_waiting_empty (n : nat) (t : Q) (st : ListenState)
  (rg : bool) :
  queue st = [] ->
  iterate E self sid skip n (mkListener (AwaitGet t) st rg)
  = (mkListener (AwaitGet t) st rg, []).
Proof.
  intros Hq. induction n as [|n IH]; [reflexivity|].
  cbn [iterate pull at_pc step vars]. rewrite Hq. cbn [stay].
  now rewrite IH.
Qed.

(** A listen call waiting on its queue hands the queued events to the
    iterating consumer, each by itself and in their order, and is then
    over or waiting on an empty queue. *)
Lemma iterate_waiting_yields (q : list (option ChatEvent)) :
  forall (d r rg : bool) (t : Q) (n : nat),
    (2 * length q + 1 <= n)%nat ->
    let r2 := iterate E self sid skip n
                (mkListener (AwaitGet t) (mkListenState q d r) rg) in
    yields (snd r2) = pending q /\
    observer_yields (snd r2) = pending q /\
    queue (vars (fst r2)) = [] /\
    (at_pc (fst r2) = Finished None \/ exists t', at_pc (fst r2) = AwaitGet t').
Proof.
  induction q as [|[e|] q IH]; intros d r rg t n Hn.
  - cbn zeta. rewrite iterate_waiting_empty by reflexivity.
    cbn. repeat split; eauto.
  - destruct n as [|[|n]]; try (cbn in Hn; lia).
    cbn [iterate pull at_pc step vars queue dequeued suspend].
    cbn [done received_agent_response].
    unfold loop_head. cbn [done received_agent_response].
    destruct d.
    + unfold drain. cbn [queue].
      pose proof (drain_iterate_yields q (mkListenState q true r) n
                    ltac:(cbn in Hn; lia)) as K.
      cbn zeta in K.
      destruct (drain_loop q _) as [s1 a1]. cbn [fst snd] in K |- *.
      destruct (iterate E self sid skip n s1) as [s2 a2].
      cbn [fst snd] in K |- *.
      destruct K as (K1 & K2 & K3 & K4).
      split; [|split; [|split]]; auto.
      * cbn. unfold pending in *. cbn. f_equal. exact K1.
      * cbn. unfold pending in *. cbn. f_equal. exact K2.
    + unfold suspend.
      specialize (IH false r true
                    (if r then response_idle_timeout_s self
                     else idle_timeout_s self)
                    n ltac:(cbn in Hn; lia)).
      cbn zeta in IH.
      destruct (iterate E self sid skip n _) as [s2 a2].
      cbn [fst snd] in IH |- *.
      destruct IH as (K1 & K2 & K3 & K4).
      split; [|split; [|split]]; auto.
      * cbn. unfold pending in *. cbn. f_equal. exact K1.
      * cbn. unfold pending in *. cbn. f_equal. exact K2.
  - destruct n as [|n]; [cbn in Hn; lia|].
    cbn [iterate pull at_pc step vars queue dequeued].
    cbn [done received_agent_response]. unfold drain. cbn [queue].
    pose proof (drain_iterate_yields q (mkListenState q d r) n
                  ltac:(cbn in Hn; lia)) as K.
    cbn zeta in K.
    destruct (drain_loop q _) as [s1 a1]. cbn [fst snd] in K |- *.
    destruct (iterate E self sid skip n s1) as [s2 a2].
    cbn [fst snd] in K |- *.
    destruct K as (K1 & K2 & K3 & K4).
    split; [|split; [|split]]; auto.
Qed.

(** The same from every point at which the consumer or the queue is
    awaited. *)
Lemma iterate_yields_queue (s : Listener) (n : nat) :
  (exists t, at_pc s = AwaitGet t) \/ at_pc s = YieldLoop \/
  at_pc s = YieldDrain \/ at_pc s = YieldRepoll ->
  (2 * length (queue (vars s)) + 2 <= n)%nat ->
  let r2 := iterate E self sid skip n s in
  yields (snd r2) = pending (queue (vars s)) /\
  observer_yields (snd r2) = pending (queue (vars s)) /\
  queue (vars (fst r2)) = [] /\
  (at_pc (fst r2) = Finished None \/ exists t', at_pc (fst r2) = AwaitGet t').
Proof.
  intros Hpc Hn. destruct s as [p [q d r] rg]. cbn in Hpc, Hn.
  destruct Hpc as [[t ->]|Hpc].
  { apply iterate_waiting_yields. lia. }
  destruct n as [|n]; [lia|].
  assert (Hdrain :
    let r1 := drain_loop q (mkListenState q d r) in
    let r2 := iterate E self sid skip n (fst r1) in
    yields (snd r1 ++ snd r2) = pending q /\
    observer_yields (snd r1 ++ snd r2) = pending q /\
    queue (vars (fst r2)) = [] /\
    (at_pc (fst r2) = Finished None \/
     exists t', at_pc (fst r2) = AwaitGet t')).
  { pose proof (drain_iterate_yields q (mkListenState q d r) n
                  ltac:(lia)) as K.
    cbn zeta in *. tauto. }
  cbn zeta in Hdrain.
  destruct Hpc as [-> |[-> | ->]];
    cbn [iterate pull at_pc step vars]; unfold drain; cbn [queue].
  - unfold loop_head. cbn [done received_agent_response].
    destruct d.
    + unfold drain. cbn [queue].
      destruct (drain_loop q _) as [s1 a1]. cbn [fst snd] in *.
      now destruct (iterate E self sid skip n s1).
    + unfold suspend.
      pose proof (iterate_waiting_yields q false r true
                    (if r then response_idle_timeout_s self
                     else idle_timeout_s self) n ltac:(lia)) as K.
      cbn zeta in K. clear Hdrain.
      destruct (iterate E self sid skip n _) as [s2 a2].
      cbn [fst snd app] in *. exact K.
  - destruct (drain_loop q _) as [s1 a1]. cbn [fst snd] in *.
    now destruct (iterate E self sid skip n s1).
  - destruct (drain_loop q _) as [s1 a1]. cbn [fst snd] in *.
    now destruct (iterate E self sid skip n s1).
Qed.

(** Every envelope delivered while the observer is registered reaches
    it, and the events that pass the session filter queue up in the
    order of their envelopes. *)
Lemma run_deliveries_registered (ds : list (string * pyval)) :
  forall s : Listener,
    registered s = true ->
    let r1 := run E self sid skip (deliveries ds) s in
    at_pc (fst r1) = at_pc s /\
    registered (fst r1) = true /\
    snd r1 = map (fun d => Handled (fst d) (snd d)) ds /\
    pending (queue (vars (fst r1)))
    = pending (queue (vars s))
      ++ flat_map (fun d => opt_item (session_filter sid (fst d) (snd d)))
           ds.
Proof.
  induction ds as [|[event raw] ds IH]; intros s Hr.
  - cbn. now rewrite app_nil_r.
  - cbn [deliveries map run step fst snd]. rewrite Hr.
    fold (deliveries ds).
    specialize (IH (mkListener (at_pc s)
                      (fst (handler E sid event raw (vars s))) true)
                  eq_refl).
    cbn zeta in IH.
    destruct (run E self sid skip (deliveries ds) _) as [s2 a2].
    cbn [fst snd at_pc vars] in IH |- *.
    destruct IH as (I1 & I2 & I3 & I4).
    repeat split; auto.
    + cbn. now rewrite I3.
    + rewrite I4, handler_state. unfold handled. cbn [flat_map fst snd].
      destruct (session_filter sid event raw) as [ev|]; cbn [opt_item].
      * cbn [queue]. rewrite pending_app, <- app_assoc. f_equal.
        f_equal. now destruct (stop_signal _ _ _ _).
      * reflexivity.
Qed.

End Progress.

(** ** The idle loop without a query collaborator *)

Lemma run_timeouts_silent (E : S2CEvent) (self : ChatEngine) (sid : string)
  (skip : bool) (n : nat) :
  check_session_state self = false ->
  run E self sid skip (repeat Timeout n)
    (mkListener (AwaitGet (idle_timeout_s self)) fresh_state true)
  = (mkListener (AwaitGet (idle_timeout_s self)) fresh_state true,
     repeat (TimedOut (idle_timeout_s self)) n).
Proof.
  intros Hc. induction n as [|n IH]; [reflexivity|].
  cbn [repeat run step at_pc vars]. unfold timed_out, loop_head.
  cbn [fresh_state received_agent_response done suspend].
  rewrite Hc. unfold suspend. rewrite IH. reflexivity.
Qed.

(** C1, as amended.  With the precheck skipped, no query collaborator and no
    inbound event, the listen call never ends by itself: after every expiry
    of the idle timeout it waits again with the idle timeout, its observer
    is still registered and it has yielded nothing. *)
Theorem silent_listen_keeps_waiting (E : S2CEvent) (idle response : Q)
  (sid : string) (n : nat) :
  let self := {| check_session_state := false;
                 idle_timeout_s := idle;
                 response_idle_timeout_s := response |} in
  let r := _listen E self sid true (Next :: repeat Timeout n) in
  fst r = mkListener (AwaitGet idle) fresh_state true /\
  snd r = AddHandler :: repeat (TimedOut idle) n /\
  finished (fst r) = false /\
  yields (snd r) = [].
Proof.
  intros self r. subst r. unfold _listen. cbn [run].
  assert (Hs : step E self sid true (initial) Next
               = (mkListener (AwaitGet (idle_timeout_s self)) fresh_state true,
                  [AddHandler])) by reflexivity.
  rewrite Hs, (run_timeouts_silent E self sid true n eq_refl).
  cbn [fst snd app idle_timeout_s self].
  repeat split.
  induction n as [|n IH]; [reflexivity|exact IH].
Qed.

(** C1 as stated fails: with [idleTimeout = 5] and nothing delivered, the
    listen call has not ended once the idle timeout has expired; it is
    waiting for the next five seconds. *)
Lemma silent_listen_not_over_after_one_timeout :
  let self := {| check_session_state := false;
                 idle_timeout_s := 5;
                 response_idle_timeout_s := 2 |} in
  let r := _listen wire self "s1" true [Next; Timeout] in
  finished (fst r) = false /\
  at_pc (fst r) = AwaitGet 5 /\
  registered (fst r) = true /\
  snd r = [AddHandler; TimedOut 5].
Proof. repeat split. Qed.

(** ** The stale-event predicate *)

Lemma replace_Z_app (s t : string) :
  replace_Z (s ++ t) = (replace_Z s ++ replace_Z t)%string.
Proof.
  induction s as [|c s IH]; [reflexivity|].
  cbn. rewrite IH. now destruct (Ascii.eqb c "Z").
Qed.

(** A trailing [Z] reads as the offset [+00:00]. *)
Lemma replace_Z_suffix (s : string) :
  replace_Z (s ++ "Z") = replace_Z (s ++ "+00:00").
Proof. now rewrite !replace_Z_app. Qed.

(** On an event whose timestamp, if any, is a string, the predicate returns
    and it answers [True] exactly when the metadata is a dict with a truthy
    timestamp that parses to a datetime earlier than the cutoff. *)
Lemma is_stale_event_string_timestamp
  (fromisoformat : string -> option datetime) (event : ChatEvent)
  (cutoff : datetime) :
  (forall d, metadata event = PDict d ->
             truthy (item d "timestamp") = true ->
             exists ts, item d "timestamp" = PStr ts) ->
  exists b, _is_stale_event fromisoformat event cutoff = Ok b /\
    (b = true <->
     exists d ts event_ts,
       metadata event = PDict d /\
       item d "timestamp" = PStr ts /\ ts <> "" /\
       fromisoformat (replace_Z ts) = Some event_ts /\
       dt_lt event_ts cutoff = Ok true).
Proof.
  intros Hstr. unfold _is_stale_event.
  destruct (metadata event) as [| | | | |d] eqn:Hm; cbn [is_dict negb].
  1-5: exists false; split; [reflexivity|];
       split; [discriminate|intros (d & ts & dt & [=] & _)].
  cbn [py_get]. fold (item d "timestamp").
  destruct (truthy (item d "timestamp")) eqn:Ht; cbn [negb].
  - destruct (Hstr d eq_refl Ht) as [ts Hts]. rewrite Hts in *.
    cbn in Ht. apply negb_true_iff in Ht.
    assert (Hne : ts <> "") by (intros ->; discriminate).
    unfold stale_try. cbn [py_replace_Z].
    destruct (fromisoformat (replace_Z ts)) as [dt|] eqn:Hp.
    + destruct (dt_lt dt cutoff) as [b|e] eqn:Hlt.
      * exists b. split; [reflexivity|]. split.
        -- intros ->. exists d, ts, dt. auto.
        -- intros (d' & ts' & dt' & Hd & Hts' & _ & Hp' & Hlt').
           injection Hd as <-. rewrite Hts in Hts'. injection Hts' as <-.
           congruence.
      * assert (He : e = TypeError).
        { unfold dt_lt in Hlt.
          destruct (utcoffset dt), (utcoffset cutoff); congruence. }
        subst e. exists false. split; [reflexivity|]. split; [discriminate|].
        intros (d' & ts' & dt' & Hd & Hts' & _ & Hp' & Hlt').
        injection Hd as <-. rewrite Hts in Hts'. injection Hts' as <-.
        congruence.
    + exists false. split; [reflexivity|]. split; [discriminate|].
      intros (d' & ts' & dt' & Hd & Hts' & _ & Hp' & _).
      injection Hd as <-. rewrite Hts in Hts'. injection Hts' as <-.
      congruence.
  - exists false. split; [reflexivity|]. split; [discriminate|].
    intros (d' & ts' & dt' & Hd & Hts & Hne & _).
    injection Hd as <-. rewrite Hts in Ht. cbn in Ht. apply negb_false_iff in Ht.
    apply String.eqb_eq in Ht. contradiction.
Qed.

(** C2.  On an event whose timestamp is a number the predicate does not
    return [False]: [replace] is looked up on the number, the
    [AttributeError] is none of the two exceptions that the [except] clause
    names, and it leaves the predicate and ends the sequence of [chat]. *)
Theorem is_stale_event_numeric_timestamp_raises
  (fromisoformat : string -> option datetime) (cutoff : datetime)
  (later : list (option ChatEvent)) :
  let event := mkChatEvent "session:work_log" "s1" PNone (PDict [])
                 (PDict [("timestamp", PInt 1700000000)]) in
  _is_stale_event fromisoformat event cutoff = Raise AttributeError /\
  chat_loop fromisoformat cutoff (Some event :: later)
  = ([], Some AttributeError).
Proof. split; reflexivity. Qed.

(** ** Session isolation *)

Lemma foreign_filtered (sid event : string) (raw : pyval)
  (p : list (string * pyval)) :
  py_get raw "payload" (PDict []) = Ok (PDict p) ->
  truthy (item p "session_id") = true ->
  py_eq_str (item p "session_id") sid = false ->
  session_filter sid event raw = None.
Proof.
  intros Hp Ht Hne. unfold session_filter. now rewrite Hp, Ht, Hne.
Qed.

(** C3, as amended.  An envelope whose session id is truthy and differs from
    the requested one is dropped by the observer before it enqueues or
    looks at a flag: the listen call ends up in the same state and yields
    the same values as if the envelope had not been delivered.  An
    envelope whose session id is falsy (absent, [None], empty) is taken to
    carry none: its event is built for the requested session, enqueued,
    counted as a response when its type is substantive, and yielded to
    the consumer that iterates. *)
Theorem foreign_session_event_discarded (E : S2CEvent) (self : ChatEngine)
  (sid : string) (skip : bool) (xs ys : list stimulus)
  (event : string) (raw : pyval) (p : list (string * pyval)) :
  py_get raw "payload" (PDict []) = Ok (PDict p) ->
  (truthy (item p "session_id") = true ->
   py_eq_str (item p "session_id") sid = false ->
   (forall st, fst (handler E sid event raw st) = st) /\
   fst (_listen E self sid skip (xs ++ Deliver event raw :: ys))
   = fst (_listen E self sid skip (xs ++ ys)) /\
   yields (snd (_listen E self sid skip (xs ++ Deliver event raw :: ys)))
   = yields (snd (_listen E self sid skip (xs ++ ys)))) /\
  (truthy (item p "session_id") = false ->
   exists ev,
     session_filter sid event raw = Some ev /\
     type ev = event /\ session_id ev = sid /\
     message_id ev = item p "message_id" /\ data ev = item p "data" /\
     (forall st,
        In (Some ev) (queue (fst (handler E sid event raw st))) /\
        received_agent_response (fst (handler E sid event raw st))
        = received_agent_response st || substantive E event) /\
     (let s := fst (_listen E self sid skip xs) in
      (exists t, at_pc s = AwaitGet t) \/ at_pc s = YieldLoop \/
      at_pc s = YieldDrain \/ at_pc s = YieldRepoll ->
      let s1 := fst (step E self sid skip s (Deliver event raw)) in
      forall n, (2 * length (queue (vars s1)) + 2 <= n)%nat ->
                In (Some ev) (yields (snd (iterate E self sid skip n s1))))).
Proof.
  intros Hp. split.
  - intros Ht Hne.
    pose proof (foreign_filtered sid event raw p Hp Ht Hne) as Hf.
    assert (Hh : forall st, fst (handler E sid event raw st) = st).
    { intros st. rewrite handler_state. unfold handled. now rewrite Hf. }
    split; [exact Hh|].
    unfold _listen. rewrite !run_app. cbn [fst snd].
    set (s := fst (run E self sid skip xs initial)).
    cbn [run].
    assert (Hstep : exists a,
               step E self sid skip s (Deliver event raw) = (s, a)
               /\ yields a = []).
    { cbn [step]. destruct (registered s) eqn:Hr.
      - rewrite Hh. exists [Handled event raw]. split; [|reflexivity].
        destruct s; cbn in *. now subst.
      - exists []. split; reflexivity. }
    destruct Hstep as (a & -> & Ha).
    destruct (run E self sid skip ys s) as [s2 a2]. cbn [fst snd].
    split; [reflexivity|].
    now rewrite !yields_app, Ha.
  - intros Ht.
    assert (Hf : session_filter sid event raw
                 = Some (mkChatEvent event sid (item p "message_id")
                           (item p "data")
                           (match py_get raw "metadata" PNone with
                            | Ok m => m
                            | Raise _ => PNone
                            end))).
    { unfold session_filter. now rewrite Hp, Ht. }
    eexists. split; [exact Hf|]. cbn [type session_id message_id data].
    do 4 (split; [reflexivity|]).
    assert (Hq : forall st,
               In (Some (mkChatEvent event sid (item p "message_id")
                           (item p "data")
                           (match py_get raw "metadata" PNone with
                            | Ok m => m
                            | Raise _ => PNone
                            end)))
                 (pending (queue (fst (handler E sid event raw st))))).
    { intros st. rewrite handler_state. unfold handled. rewrite Hf.
      cbn [queue]. rewrite pending_app. apply in_or_app. right.
      now left. }
    split.
    + intros st. split.
      * specialize (Hq st). unfold pending in Hq.
        apply filter_In in Hq. tauto.
      * rewrite handler_state. unfold handled. now rewrite Hf.
    + cbn zeta. intros Hpc n Hn.
      set (s := fst (_listen E self sid skip xs)) in *.
      set (s1 := fst (step E self sid skip s (Deliver event raw))) in *.
      pose proof (listen_keeps E self sid skip xs) as HI. fold s in HI.
      assert (Hreg : registered s = true).
      { eapply Active_registered; [|exact HI].
        destruct Hpc as [[t ->]|[-> |[-> | ->]]]; reflexivity. }
      assert (Hs1 : s1 = mkListener (at_pc s)
                           (fst (handler E sid event raw (vars s))) true).
      { subst s1. cbn [step]. now rewrite Hreg. }
      assert (Hpc1 : (exists t, at_pc s1 = AwaitGet t) \/ at_pc s1 = YieldLoop \/
                     at_pc s1 = YieldDrain \/ at_pc s1 = YieldRepoll)
        by (rewrite Hs1; exact Hpc).
      destruct (iterate_yields_queue E self sid skip s1 n Hpc1 Hn) as (K & _).
      rewrite K, Hs1. cbn [vars]. apply Hq.
Qed.

Lemma foreign_session_event_discarded_witness :
  let foreign := envelope (PStr "s2") (content "Hi!") (PDict []) in
  let anonymous := PDict [("payload", PDict [("data", content "Hi!")])] in
  fst (_listen wire (engine false) "s1" true
         ([Next] ++ Deliver "session:text" foreign :: [Wake]))
  = fst (_listen wire (engine false) "s1" true ([Next] ++ [Wake])) /\
  exists ev,
    session_filter "s1" "session:text" anonymous = Some ev /\
    In (Some ev)
      (yields
         (snd (iterate wire (engine false) "s1" true 4
                 (fst (step wire (engine false) "s1" true
                         (fst (_listen wire (engine false) "s1" true [Next]))
                         (Deliver "session:text" anonymous)))))).
Proof.
  intros foreign anonymous. split.
  - exact (proj1 (proj2
             (proj1 (foreign_session_event_discarded wire (engine false)
                       "s1" true [Next] [Wake] "session:text" foreign
                       [("session_id", PStr "s2"); ("data", content "Hi!")]
                       eq_refl) eq_refl eq_refl))).
  - destruct (proj2 (foreign_session_event_discarded wire (engine false)
                       "s1" true [Next] [] "session:text" anonymous
                       [("data", content "Hi!")] eq_refl) eq_refl)
      as (ev & Hf & _ & _ & _ & _ & _ & Hy).
    exists ev. split; [exact Hf|].
    apply Hy.
    + left. exists DEFAULT_IDLE_TIMEOUT_S. reflexivity.
    + apply le_n.
Defined.

(** C3 as stated fails: an envelope whose session id is the empty string
    differs from the requested session ["s1"], yet its event is yielded and
    sets [received_agent_response]. *)
Lemma empty_session_id_is_not_discarded :
  let raw := envelope (PStr "") (content "Hi!") (PDict []) in
  let r := _listen wire (engine false) "s1" true
             [Next; Deliver (SESSION_TEXT wire) raw; Wake] in
  py_get raw "payload" (PDict [])
  = Ok (PDict [("session_id", PStr ""); ("data", content "Hi!")]) /\
  py_eq_str (PStr "") "s1" = false /\
  yields (snd r)
  = [Some (mkChatEvent (SESSION_TEXT wire) "s1" PNone (content "Hi!")
             (PDict []))] /\
  received_agent_response (vars (fst r)) = true.
Proof. repeat split. Qed.

(** ** The input-state completion signal *)




(** ** The two stop triggers *)




(** ** Release of the observer *)

(** C6.  A listen call registers its observer at most once, removes it not
    before the generator is over, and once the generator is over, by
    whatever exit, it has removed it exactly as often as it registered it:
    once when the observer was registered. *)
Theorem observer_removed_exactly_once (E : S2CEvent) (self : ChatEngine)
  (sid : string) (skip : bool) (xs : list stimulus) :
  let r := _listen E self sid skip xs in
  adds (snd r) = 1%nat ->
  (finished (fst r) = true ->
   removes (snd r) = 1%nat /\ registered (fst r) = false) /\
  (finished (fst r) = false ->
   removes (snd r) = 0%nat /\ registered (fst r) = true).
Proof.
  intros r Ha.
  pose proof (listen_keeps E self sid skip xs) as HI. fold r in HI.
  destruct HI as [_ _ _ _ Hp]. unfold finished.
  destruct (at_pc (fst r)); split; try discriminate; intros _;
    try (destruct Hp as (Hr & _ & Ha' & _); lia);
    try (destruct Hp as (Hr & Ha' & Hrm); split; [lia|exact Hr]).
Qed.

(** The exits of C6 on runs of the model: exhaustion after a terminal
    event, exit on the response-idle timeout, an error raised into the
    generator, and the consumer closing it early. *)
Lemma observer_removed_exactly_once_witness :
  let text := Deliver (SESSION_TEXT wire)
                (envelope (PStr "s1") (content "Hi!") (PDict [])) in
  let over := Deliver (SESSION_STATE wire)
                (envelope (PStr "s1") (content "task_finished") (PDict [])) in
  let removed xs := removes (snd (_listen wire (engine false) "s1" true xs)) in
  removed [Next; text; over; Wake; Next; Next] = 1%nat /\
  removed [Next; text; Wake; Next; Timeout] = 1%nat /\
  removed [Next; text; Wake; Throw (Exception ValueError)] = 1%nat /\
  removed [Next; text; Wake; Throw GeneratorExit] = 1%nat /\
  removed [Next; Throw CancelledError] = 1%nat.
Proof.
  intros text over removed.
  assert (H : forall xs,
             adds (snd (_listen wire (engine false) "s1" true xs)) = 1%nat ->
             finished (fst (_listen wire (engine false) "s1" true xs)) = true ->
             removed xs = 1%nat).
  { intros xs Ha Hf.
    exact (proj1 (proj1 (observer_removed_exactly_once wire (engine false)
                           "s1" true xs Ha) Hf)). }
  repeat apply conj; apply H; reflexivity.
Defined.

(** ** The precheck *)

(** C7.  With the precheck enabled, a query collaborator configured and a
    terminal state reported, the listen call yields the one event built
    from that state and ends; it never registers the observer, and
    envelopes delivered in the meantime leave no trace. *)
Theorem precheck_terminal_yields_once (E : S2CEvent) (self : ChatEngine)
  (sid : string) (d : list (string * pyval)) (state : string)
  (ds0 ds1 ds2 ds3 : list (string * pyval)) :
  check_session_state self = true ->
  lookup "state" d = Some (PStr state) ->
  In state TERMINAL_STATES ->
  _listen E self sid false
    (deliveries ds0 ++ Next ::
     deliveries ds1 ++ Answer (QReturn (PDict d)) ::
     deliveries ds2 ++ Next :: deliveries ds3)
  = (mkListener (Finished None) fresh_state false,
     [Query sid;
      Yield AtPrecheck
        (Some (mkChatEvent (SESSION_STATE E) sid PNone
                 (PDict [("content", PStr state)]) PNone))]).
Proof.
  intros Hc Hs Hin. unfold _listen.
  assert (Ht : terminal_state (PDict d) = Ok (Some (PStr state))).
  { unfold terminal_state. cbn [py_get]. rewrite Hs. cbn [py_in].
    replace (existsb (String.eqb state) TERMINAL_STATES) with true;
      [reflexivity|].
    symmetry. apply existsb_exists. exists state.
    split; [exact Hin|apply String.eqb_refl]. }
  rewrite run_app, run_deliveries_unregistered by reflexivity.
  cbn [fst snd app run step initial at_pc]. unfold begin.
  rewrite Hc. cbn [negb andb].
  rewrite run_app, run_deliveries_unregistered by reflexivity.
  cbn [fst snd app run step initial at_pc]. unfold prechecked.
  rewrite Ht.
  rewrite run_app, run_deliveries_unregistered by reflexivity.
  cbn [fst snd app run step initial at_pc vars].
  rewrite run_deliveries_unregistered by reflexivity.
  reflexivity.
Qed.

Lemma precheck_terminal_yields_once_witness :
  yields (snd (_listen wire (engine true) "s1" false
                 (deliveries [] ++ Next ::
                  deliveries [] ++
                  Answer (QReturn (PDict [("state", PStr "task_finished")])) ::
                  deliveries [("session:text",
                               envelope (PStr "s1") (content "Hi!")
                                 (PDict []))] ++
                  Next :: deliveries [])))
  = [Some (mkChatEvent (SESSION_STATE wire) "s1" PNone
             (content "task_finished") PNone)].
Proof.
  rewrite (precheck_terminal_yields_once wire (engine true) "s1"
             [("state", PStr "task_finished")] "task_finished"
             [] [] [("session:text",
                     envelope (PStr "s1") (content "Hi!") (PDict []))] []
             eq_refl eq_refl (or_introl eq_refl)).
  reflexivity.
Defined.

(** ** Failure of the session-state query *)

(** C8.  An exception of the query never leaves the listen call.  In the
    precheck the call goes on to register its observer and to wait with
    the idle timeout; on the timeout path it goes back to the head of the
    loop and, unless [done] was set meanwhile, waits again. *)
Theorem query_failure_is_swallowed (E : S2CEvent) (self : ChatEngine)
  (sid : string) (skip : bool) (s : Listener) (e : exn) :
  at_pc s = AwaitPrecheck \/ at_pc s = AwaitRepoll ->
  let r := step E self sid skip s (Answer (QRaise e)) in
  (forall t, at_pc (fst r) <> Finished (Some t)) /\
  (at_pc s = AwaitPrecheck ->
   r = (mkListener (AwaitGet (idle_timeout_s self)) fresh_state true,
        [AddHandler])) /\
  (at_pc s = AwaitRepoll ->
   r = loop_head self (vars s) /\
   (done (vars s) = false ->
    r = (mkListener
           (AwaitGet (if received_agent_response (vars s)
                      then response_idle_timeout_s self
                      else idle_timeout_s self)) (vars s) true, []))).
Proof.
  intros Hpc r. subst r. destruct s as [p st rg]. cbn in Hpc.
  destruct Hpc as [-> | ->]; cbn [step at_pc vars prechecked repolled].
  - repeat split; try discriminate.
  - unfold loop_head. destruct (done st) eqn:Hd.
    + unfold drain.
      pose proof (drain_loop_result (queue st) st) as D.
      destruct (drain_loop (queue st) st) as [s2 a2]. cbn [fst snd] in *.
      repeat split; try discriminate.
      intros t. destruct D as [D|[D _]]; rewrite D; discriminate.
    + repeat split; try discriminate.
Qed.

Lemma query_failure_is_swallowed_witness :
  step wire (engine true) "s1" false
    (fst (_listen wire (engine true) "s1" false [Next]))
    (Answer (QRaise (OtherException "ConnectionError")))
  = (mkListener (AwaitGet DEFAULT_IDLE_TIMEOUT_S) fresh_state true,
     [AddHandler]).
Proof.
  refine (proj1 (proj2 (query_failure_is_swallowed wire (engine true) "s1"
                          false
                          (fst (_listen wire (engine true) "s1" false [Next]))
                          (OtherException "ConnectionError")
                          (or_introl eq_refl))) eq_refl).
Defined.

(** ** Order of delivery *)

(** C9.  At every point of a listen call the values yielded from the queue
    followed by the events still queued are the events that passed the
    session filter, one for one and in the order in which the transport
    delivered their envelopes; when the generator has ended normally
    nothing is left in the queue.  And the events do reach the consumer:
    every envelope delivered to a listen call that is waiting reaches the
    observer, and the consumer that iterates is handed what was queued and
    then one event for each envelope that passes the filter, in the order
    of delivery and never merged, after which everything accepted so far
    has been yielded. *)
Theorem yields_follow_delivery_order (E : S2CEvent) (self : ChatEngine)
  (sid : string) (skip : bool) (xs : list stimulus) :
  let r := _listen E self sid skip xs in
  observer_yields (snd r) ++ pending (queue (vars (fst r)))
  = accepted sid (snd r) /\
  (at_pc (fst r) = Finished None ->
   observer_yields (snd r) = accepted sid (snd r)) /\
  (forall event raw st,
     exists sentinel,
       queue (fst (handler E sid event raw st))
       = queue st ++ opt_item (session_filter sid event raw) ++ sentinel /\
       pending sentinel = []) /\
  (forall (ds : list (string * pyval)) (n : nat),
     (exists t, at_pc (fst r) = AwaitGet t) \/ at_pc (fst r) = YieldLoop \/
     at_pc (fst r) = YieldDrain \/ at_pc (fst r) = YieldRepoll ->
     let r1 := run E self sid skip (deliveries ds) (fst r) in
     (2 * length (queue (vars (fst r1))) + 2 <= n)%nat ->
     let r2 := iterate E self sid skip n (fst r1) in
     snd r1 = map (fun d => Handled (fst d) (snd d)) ds /\
     yields (snd r2)
     = pending (queue (vars (fst r)))
       ++ flat_map (fun d => opt_item (session_filter sid (fst d) (snd d))) ds
     /\
     observer_yields (snd r2) = yields (snd r2) /\
     observer_yields (snd r ++ snd r1 ++ snd r2)
     = accepted sid (snd r ++ snd r1 ++ snd r2)).
Proof.
  intros r.
  pose proof (listen_keeps E self sid skip xs) as HI. fold r in HI.
  pose proof HI as [_ _ Ho _ Hp]. split; [exact Ho|]. split; [|split].
  - intros Hf. rewrite Hf in Hp. destruct Hp as (_ & _ & _ & Hq).
    rewrite (Hq eq_refl) in Ho. cbn in Ho. now rewrite app_nil_r in Ho.
  - intros event raw st. rewrite handler_state. unfold handled.
    destruct (session_filter sid event raw) as [ev|]; cbn [opt_item queue].
    + exists (if stop_signal E event (data ev)
                   (received_agent_response st || substantive E event)
              then [None] else []).
      split; [reflexivity|]. now destruct (stop_signal _ _ _ _).
    + exists []. split; [now rewrite app_nil_r|reflexivity].
  - intros ds n Hpc r1 Hn r2.
    assert (Hreg : registered (fst r) = true).
    { eapply Active_registered; [|exact HI].
      destruct Hpc as [[t ->]|[-> |[-> | ->]]]; reflexivity. }
    destruct (run_deliveries_registered E self sid skip ds (fst r) Hreg)
      as (D1 & D2 & D3 & D4).
    fold r1 in D1, D2, D3, D4.
    assert (Hpc1 : (exists t, at_pc (fst r1) = AwaitGet t) \/
                   at_pc (fst r1) = YieldLoop \/
                   at_pc (fst r1) = YieldDrain \/
                   at_pc (fst r1) = YieldRepoll)
      by (rewrite D1; exact Hpc).
    destruct (iterate_yields_queue E self sid skip (fst r1) n Hpc1 Hn)
      as (K1 & K2 & K3 & _).
    fold r2 in K1, K2, K3.
    split; [exact D3|]. split; [now rewrite K1, D4|].
    split; [now rewrite K1, K2|].
    pose proof (run_keeps E self sid skip (deliveries ds) (fst r) (snd r) HI)
      as HI1.
    fold r1 in HI1.
    pose proof (iterate_keeps E self sid skip n (fst r1) _ HI1) as HI2.
    fold r2 in HI2. destruct HI2 as [_ _ Ho2 _ _].
    rewrite K3 in Ho2. cbn in Ho2. rewrite app_nil_r in Ho2.
    now rewrite <- app_assoc in Ho2.
Qed.

Lemma yields_follow_delivery_order_witness :
  let part s := ("session:text_part",
                 envelope (PStr "s1") (content s) (PDict [])) in
  let foreign := ("session:text_part",
                  envelope (PStr "s2") (content "other") (PDict [])) in
  let r := _listen wire (engine false) "s1" true [Next] in
  yields
    (snd (iterate wire (engine false) "s1" true 6
            (fst (run wire (engine false) "s1" true
                    (deliveries [part "Hello "; foreign; part "world"])
                    (fst r)))))
  = [Some (mkChatEvent "session:text_part" "s1" PNone (content "Hello ")
             (PDict []));
     Some (mkChatEvent "session:text_part" "s1" PNone (content "world")
             (PDict []))].
Proof.
  intros part foreign r.
  exact (proj1 (proj2
           (proj2 (proj2 (proj2
              (yields_follow_delivery_order wire (engine false) "s1" true
                 [Next])))
              [part "Hello "; foreign; part "world"] 6%nat
              (or_introl (ex_intro _ DEFAULT_IDLE_TIMEOUT_S eq_refl))
              (le_n 6)))).
Defined.

(** Two fragments and the terminal event of the tests: three values are
    yielded, in the order of arrival. *)
Example text_parts_dispatched_one_by_one :
  let part s := Deliver (SESSION_TEXT_PART wire)
                  (envelope (PStr "s1") (content s) (PDict [])) in
  let over := Deliver (SESSION_STATE wire)
                (envelope (PStr "s1") (content "task_finished") (PDict [])) in
  let r := _listen wire (engine false) "s1" true
             [Next; part "Hello "; part "world"; over;
              Wake; Next; Next; Next] in
  at_pc (fst r) = Finished None /\
  yields (snd r)
  = [Some (mkChatEvent (SESSION_TEXT_PART wire) "s1" PNone
             (content "Hello ") (PDict []));
     Some (mkChatEvent (SESSION_TEXT_PART wire) "s1" PNone
             (content "world") (PDict []));
     Some (mkChatEvent (SESSION_STATE wire) "s1" PNone
             (content "task_finished") (PDict []))].
Proof. split; reflexivity. Qed.

(** ** The session id of what is yielded *)

Lemma chat_loop_Forall (fromisoformat : string -> option datetime)
  (P : option ChatEvent -> Prop) (cutoff : datetime)
  (evs : list (option ChatEvent)) :
  Forall P evs -> Forall P (fst (chat_loop fromisoformat cutoff evs)).
Proof.
  induction 1 as [|[ev|] evs Hv _ IH]; cbn [chat_loop]; try constructor.
  destruct (_is_stale_event fromisoformat ev cutoff) as [[|]|];
    try constructor; [exact IH|].
  destruct (chat_loop fromisoformat cutoff evs). cbn in *.
  now constructor.
Qed.

(** C10.  The event that the observer builds from an envelope has the
    requested session id whatever the envelope says, and so has every
    value that [_listen], and with it [chat], yields. *)
Theorem yielded_events_carry_requested_session (E : S2CEvent)
  (self : ChatEngine) (sid : string) (skip : bool) (xs : list stimulus) :
  (forall event raw st v,
     In v (queue (fst (handler E sid event raw st))) ->
     In v (queue st) \/ v = None \/
     exists ev, v = Some ev /\ session_id ev = sid) /\
  Forall (fun v => exists ev, v = Some ev /\ session_id ev = sid)
    (yields (snd (_listen E self sid skip xs))) /\
  (forall fromisoformat cutoff,
     Forall (fun v => exists ev, v = Some ev /\ session_id ev = sid)
       (fst (chat fromisoformat E self sid cutoff xs))).
Proof.
  assert (Hy : forall b ys,
             Forall (fun v => exists ev, v = Some ev /\ session_id ev = sid)
               (yields (snd (_listen E self sid b ys)))).
  { intros b ys.
    pose proof (inv_yields _ _ _ (listen_keeps E self sid b ys)) as H.
    revert H. apply Forall_impl. intros [ev|]; cbn; [eauto|tauto]. }
  split; [|split].
  - intros event raw st v. rewrite handler_state. unfold handled.
    destruct (session_filter sid event raw) as [ev|] eqn:Hf; [|auto].
    cbn [queue]. intros Hin. apply in_app_or in Hin as [Hin|Hin]; [auto|].
    right. destruct Hin as [<-|Hin].
    + right. exists ev. split; [reflexivity|].
      now apply session_filter_sid in Hf.
    + left. destruct (stop_signal _ _ _ _); cbn in Hin; intuition.
  - apply Hy.
  - intros fromisoformat cutoff. unfold chat. apply chat_loop_Forall, Hy.
Qed.

(** ** More on the stale-event predicate *)

Lemma append_nonempty (s t : string) : t <> "" -> (s ++ t)%string <> "".
Proof. destruct s; cbn; [tauto|discriminate]. Qed.

(** A timestamp written with a trailing [Z] and the same timestamp written
    with the offset [+00:00] get the same verdict, whatever the parser makes
    of them. *)
Theorem is_stale_event_Z_suffix
  (fromisoformat : string -> option datetime) (e1 e2 : ChatEvent)
  (d1 d2 : list (string * pyval)) (s : string) (cutoff : datetime) :
  metadata e1 = PDict d1 ->
  item d1 "timestamp" = PStr (s ++ "Z") ->
  metadata e2 = PDict d2 ->
  item d2 "timestamp" = PStr (s ++ "+00:00") ->
  _is_stale_event fromisoformat e1 cutoff
  = _is_stale_event fromisoformat e2 cutoff.
Proof.
  intros H1 T1 H2 T2. unfold _is_stale_event. rewrite H1, H2.
  cbn [is_dict negb py_get]. fold (item d1 "timestamp") (item d2 "timestamp").
  rewrite T1, T2. cbn [truthy].
  assert (N1 : ((s ++ "Z")%string =? "") = false)
    by (apply String.eqb_neq, append_nonempty; discriminate).
  assert (N2 : ((s ++ "+00:00")%string =? "") = false)
    by (apply String.eqb_neq, append_nonempty; discriminate).
  rewrite N1, N2. cbn [negb]. unfold stale_try. cbn [py_replace_Z].
  now rewrite replace_Z_suffix.
Qed.

Lemma is_stale_event_Z_suffix_witness :
  let parse (s : string) :=
    if s =? "2026-02-20T09:00:00+00:00"
    then Some {| wall := 0; utcoffset := Some 0%Z |} else None in
  let cutoff := {| wall := 5; utcoffset := Some 0%Z |} in
  let ev ts := mkChatEvent "session:work_log" "s1" PNone (PDict [])
                 (PDict [("timestamp", PStr ts)]) in
  _is_stale_event parse (ev "2026-02-20T09:00:00Z") cutoff
  = _is_stale_event parse (ev "2026-02-20T09:00:00+00:00") cutoff.
Proof.
  intros parse cutoff ev.
  exact (is_stale_event_Z_suffix parse
           (ev "2026-02-20T09:00:00Z") (ev "2026-02-20T09:00:00+00:00")
           [("timestamp", PStr "2026-02-20T09:00:00Z")]
           [("timestamp", PStr "2026-02-20T09:00:00+00:00")]
           "2026-02-20T09:00:00" cutoff
           eq_refl eq_refl eq_refl eq_refl).
Defined.

(** No [Z] is left in what is handed to the parser. *)
Theorem replace_Z_leaves_no_Z (s : string) :
  ~ In "Z"%char (list_ascii_of_string (replace_Z s)).
Proof.
  induction s as [|c s IH]; cbn; [tauto|].
  destruct (Ascii.eqb c "Z") eqn:Hc; cbn.
  - intros [H|[H|[H|[H|[H|[H|H]]]]]]; try discriminate. tauto.
  - intros [H|H]; [|tauto]. subst c. discriminate.
Qed.

(** The predicate raises nothing but [AttributeError], and this exactly
    when the metadata is a dict whose timestamp is truthy and no string. *)
Theorem is_stale_event_raises_only
  (fromisoformat : string -> option datetime) (event : ChatEvent)
  (cutoff : datetime) (e : exn) :
  _is_stale_event fromisoformat event cutoff = Raise e <->
  e = AttributeError /\
  exists d, metadata event = PDict d /\
            truthy (item d "timestamp") = true /\
            forall s, item d "timestamp" <> PStr s.
Proof.
  unfold _is_stale_event.
  destruct (metadata event) as [| | | | |d]; cbn [is_dict negb py_get].
  1-5: split; [discriminate|intros (_ & d & [=] & _)].
  fold (item d "timestamp").
  destruct (truthy (item d "timestamp")) eqn:Ht; cbn [negb].
  2:{ split; [discriminate|].
      intros (_ & d' & Hd & Ht' & _). injection Hd as <-. congruence. }
  unfold stale_try.
  remember (item d "timestamp") as v eqn:Hv.
  destruct v as [|b|z|s|l|c]; cbn [py_replace_Z]; try discriminate.
  3:{ split.
      - destruct (fromisoformat (replace_Z s)) as [dt|]; [|discriminate].
        unfold dt_lt. destruct (utcoffset dt), (utcoffset cutoff); discriminate.
      - intros (_ & d' & Hd & _ & Hs). injection Hd as <-.
        destruct (Hs s). now symmetry. }
  all: split;
    [ intros [= <-]; split; [reflexivity|];
      exists d; rewrite <- Hv; repeat split; auto; discriminate
    | intros (-> & _); reflexivity ].
Qed.

Lemma is_stale_event_string_timestamp_witness :
  let parse (s : string) :=
    if s =? "2026-02-20T09:00:00+00:00"
    then Some {| wall := 0; utcoffset := Some 0%Z |} else None in
  let cutoff := {| wall := 5; utcoffset := Some 0%Z |} in
  let event := mkChatEvent "session:work_log" "s1" PNone (PDict [])
                 (PDict [("timestamp", PStr "2026-02-20T09:00:00Z")]) in
  exists b, _is_stale_event parse event cutoff = Ok b /\
    (b = true <->
     exists d ts event_ts,
       metadata event = PDict d /\
       item d "timestamp" = PStr ts /\ ts <> "" /\
       parse (replace_Z ts) = Some event_ts /\
       dt_lt event_ts cutoff = Ok true).
Proof.
  intros parse cutoff event.
  apply (is_stale_event_string_timestamp parse event cutoff).
  intros d [= <-] _. eexists. reflexivity.
Defined.

(** A later cutoff keeps stale what an earlier one found stale. *)
Theorem is_stale_event_monotone
  (fromisoformat : string -> option datetime) (event : ChatEvent)
  (c1 c2 : datetime) :
  _is_stale_event fromisoformat event c1 = Ok true ->
  dt_lt c2 c1 = Ok false ->
  _is_stale_event fromisoformat event c2 = Ok true.
Proof.
  unfold _is_stale_event.
  destruct (is_dict (metadata event)); cbn [negb]; [|discriminate].
  destruct (py_get (metadata event) "timestamp" PNone) as [ts|]; [|discriminate].
  destruct (truthy ts); cbn [negb]; [|discriminate].
  unfold stale_try. destruct (py_replace_Z ts) as [s|[]]; try discriminate.
  destruct (fromisoformat s) as [dt|]; [|discriminate].
  unfold dt_lt.
  destruct (utcoffset dt), (utcoffset c1), (utcoffset c2); try discriminate.
  - intros [= H1] [= H2]. do 2 f_equal.
    apply Z.ltb_lt in H1. apply Z.ltb_ge in H2. apply Z.ltb_lt. lia.
  - intros [= H1] [= H2]. do 2 f_equal.
    apply Z.ltb_lt in H1. apply Z.ltb_ge in H2. apply Z.ltb_lt. lia.
Qed.

Lemma is_stale_event_monotone_witness :
  let parse (s : string) :=
    if s =? "2026-02-20T09:00:00+00:00"
    then Some {| wall := 0; utcoffset := Some 0%Z |} else None in
  let event := mkChatEvent "session:work_log" "s1" PNone (PDict [])
                 (PDict [("timestamp", PStr "2026-02-20T09:00:00Z")]) in
  _is_stale_event parse event {| wall := 9; utcoffset := Some 3%Z |}
  = Ok true.
Proof.
  intros parse event.
  exact (is_stale_event_monotone parse event
           {| wall := 5; utcoffset := Some 0%Z |}
           {| wall := 9; utcoffset := Some 3%Z |} eq_refl eq_refl).
Defined.

(** What [chat] passes on: the events before the first one on which the
    predicate raises, without those found stale and in their order; the
    sequence ends with that exception, or normally when there is none. *)
Theorem chat_loop_filters
  (fromisoformat : string -> option datetime) (cutoff : datetime)
  (evs : list ChatEvent) :
  let fresh ev :=
    match _is_stale_event fromisoformat ev cutoff with
    | Ok false => true
    | _ => false
    end in
  let raises ev :=
    match _is_stale_event fromisoformat ev cutoff with
    | Raise _ => true
    | _ => false
    end in
  exists pre rest,
    evs = pre ++ rest /\
    forallb (fun ev => negb (raises ev)) pre = true /\
    fst (chat_loop fromisoformat cutoff (map Some evs))
    = map Some (filter fresh pre) /\
    match rest with
    | [] => snd (chat_loop fromisoformat cutoff (map Some evs)) = None
    | ev :: _ =>
        exists e, _is_stale_event fromisoformat ev cutoff = Raise e /\
                  snd (chat_loop fromisoformat cutoff (map Some evs)) = Some e
    end.
Proof.
  intros fresh raises. induction evs as [|ev evs IH].
  - exists [], []. repeat split.
  - cbn [map chat_loop].
    destruct (_is_stale_event fromisoformat ev cutoff) as [[|]|e] eqn:Hs.
    + destruct IH as (pre & rest & -> & Hpre & Hf & Hr).
      exists (ev :: pre), rest. subst fresh raises. cbn. rewrite Hs. cbn.
      repeat split; auto.
    + destruct IH as (pre & rest & -> & Hpre & Hf & Hr).
      exists (ev :: pre), rest. subst fresh raises. cbn. rewrite Hs. cbn.
      destruct (chat_loop fromisoformat cutoff (map Some (pre ++ rest)))
        as [out r]. cbn in *. rewrite Hf. repeat split; auto.
    + exists [], (ev :: evs). repeat split. exists e. auto.
Qed.

(** ** More on the observer *)

Lemma handler_result (E : S2CEvent) (sid event : string) (raw : pyval)
  (st : ListenState) :
  snd (handler E sid event raw st) = handled_result E sid event raw.
Proof.
  destruct st as [q d r].
  unfold handler, handled_result, session_filter.
  destruct raw as [| | | | |rw]; try reflexivity.
  cbn [py_get]. run_obs.
  destruct (match lookup "payload" rw with Some x => x | None => PDict [] end)
    as [| | | | |p]; try reflexivity.
  cbn [py_get]. fold (item p "session_id").
  destruct (truthy _ && negb _); [reflexivity|].
  fold (item p "data"). cbn [data].
  destruct (substantive E event), (event =? SESSION_INPUT_STATE E),
    (event =? SESSION_STATE E), (item p "data") as [| | | | |c]; cbn;
    try reflexivity.
  all: unfold item; destruct (lookup "content" c) as [[| | |s| |]|];
    cbn; try reflexivity.
  all: try (destruct d, r; cbn; reflexivity).
  all: try (destruct (s =? "waiting_input"), d, r; cbn;
            destruct (s =? "task_finished"), (s =? "task_cancelled"),
              (s =? "task_stale"); cbn; reflexivity).
  all: destruct (s =? "task_finished"), (s =? "task_cancelled"),
         (s =? "task_stale"); cbn; reflexivity.
Qed.

Lemma handler_keeps_flags (E : S2CEvent) (sid event : string) (raw : pyval)
  (st : ListenState) :
  (done st = true -> done (fst (handler E sid event raw st)) = true) /\
  (received_agent_response st = true ->
   received_agent_response (fst (handler E sid event raw st)) = true).
Proof.
  rewrite handler_state. unfold handled.
  destruct (session_filter sid event raw) as [ev|]; [|auto].
  cbn [done received_agent_response]. split; now intros ->.
Qed.

(** The observer raises nothing but [AttributeError], when the envelope or
    its payload is no dict, and then it has changed nothing, and
    [TypeError], on a session-state event whose content cannot be hashed,
    and then the event is in the queue all the same. *)
Theorem handler_raises_only (E : S2CEvent) (sid event : string) (raw : pyval)
  (st : ListenState) (e : exn) :
  snd (handler E sid event raw st) = Raise e ->
  (e = AttributeError /\
   (forall p, py_get raw "payload" (PDict []) <> Ok (PDict p)) /\
   fst (handler E sid event raw st) = st) \/
  (e = TypeError /\ event = SESSION_STATE E /\
   exists ev, session_filter sid event raw = Some ev /\
              In (Some ev) (queue (fst (handler E sid event raw st)))).
Proof.
  rewrite handler_result, handler_state. unfold handled_result, handled.
  destruct (py_get raw "payload" (PDict [])) as [[| | | | |p]|e0] eqn:Hp.
  1-5,7: intros [= <-]; left; split; [reflexivity|];
         split; [discriminate|unfold session_filter; now rewrite Hp].
  destruct (session_filter sid event raw) as [ev|]; [|discriminate].
  destruct (data ev) as [| | | | |c]; try discriminate.
  destruct (event =? SESSION_STATE E) eqn:He; [|discriminate].
  apply String.eqb_eq in He.
  destruct (py_in _ TERMINAL_STATES) as [b|e1] eqn:Hin; [discriminate|].
  intros [= <-]. right.
  assert (e1 = TypeError) as ->.
  { unfold py_in in Hin.
    destruct (match lookup "content" c with Some x => x | None => PStr "" end);
      congruence. }
  repeat split; auto. exists ev. split; [reflexivity|].
  cbn [queue]. apply in_or_app. right. now left.
Qed.

Lemma handler_raises_only_witness :
  let raw := envelope (PStr "s1") (PDict [("content", PList [])]) (PDict []) in
  let st' := fst (handler wire "s1" (SESSION_STATE wire) raw fresh_state) in
  exists ev, session_filter "s1" (SESSION_STATE wire) raw = Some ev /\
             In (Some ev) (queue st').
Proof.
  intros raw st'.
  destruct (handler_raises_only wire "s1" (SESSION_STATE wire) raw fresh_state
              TypeError eq_refl) as [(H & _)|(_ & _ & H)];
    [discriminate H|exact H].
Defined.

(** An envelope without the key [payload] is taken for one with an empty
    payload: its event is enqueued for the requested session, without
    message id and data, and it stops nothing. *)
Theorem missing_payload_is_accepted (E : S2CEvent) (sid event : string)
  (r : list (string * pyval)) (st : ListenState) :
  lookup "payload" r = None ->
  handler E sid event (PDict r) st
  = ({| queue := queue st ++
                 [Some (mkChatEvent event sid PNone PNone
                          (item r "metadata"))];
        done := done st;
        received_agent_response :=
          received_agent_response st || substantive E event |}, Ok tt).
Proof.
  intros Hp.
  rewrite (surjective_pairing (handler E sid event (PDict r) st)).
  rewrite handler_state, handler_result.
  unfold handled, handled_result, session_filter. cbn [py_get].
  rewrite Hp. cbn. unfold item. rewrite orb_false_r. reflexivity.
Qed.

Lemma missing_payload_is_accepted_witness :
  queue (fst (handler wire "s1" "session:work_log"
                (PDict [("metadata", PDict [])]) fresh_state))
  = [Some (mkChatEvent "session:work_log" "s1" PNone PNone (PDict []))].
Proof.
  rewrite (missing_payload_is_accepted wire "s1" "session:work_log"
             [("metadata", PDict [])] fresh_state eq_refl).
  reflexivity.
Defined.

(** The observer only appends to the queue, at most the event and the
    sentinel, never clears a flag, and enqueues the sentinel only behind
    the event of the same envelope and together with setting [done]. *)
Theorem handler_only_appends (E : S2CEvent) (sid event : string)
  (raw : pyval) (st : ListenState) :
  let st' := fst (handler E sid event raw st) in
  exists added,
    queue st' = queue st ++ added /\
    (length added <= 2)%nat /\
    (done st = true -> done st' = true) /\
    (received_agent_response st = true ->
     received_agent_response st' = true) /\
    (In None added -> done st' = true /\ exists ev, added = [Some ev; None]).
Proof.
  intros st'. subst st'. rewrite handler_state. unfold handled.
  destruct (session_filter sid event raw) as [ev|].
  - cbn [queue done received_agent_response].
    destruct (stop_signal E event (data ev) _).
    + exists [Some ev; None]. rewrite !orb_true_r.
      split; [reflexivity|]. split; [cbn; lia|]. split; [auto|].
      split; [now intros ->|]. intros _. eauto.
    + exists [Some ev]. rewrite !orb_false_r.
      split; [reflexivity|]. split; [cbn; lia|]. split; [auto|].
      split; [now intros ->|]. intros [Hx|[]]. discriminate.
  - exists []. rewrite app_nil_r.
    split; [reflexivity|]. split; [cbn; lia|]. split; [auto|].
    split; [auto|]. intros [].
Qed.

(** Nothing but the two stop triggers makes the observer set [done]: an
    accepted input-state event with content [waiting_input] once a
    substantive event was received, or an accepted session-state event
    whose content is a terminal state; in both the data must be a dict. *)
Theorem handler_stops_exactly_when (E : S2CEvent) (sid event : string)
  (raw : pyval) (st : ListenState) :
  done st = false ->
  (done (fst (handler E sid event raw st)) = true <->
   exists ev c,
     session_filter sid event raw = Some ev /\ data ev = PDict c /\
     ((event = SESSION_INPUT_STATE E /\
       item c "content" = PStr "waiting_input" /\
       (received_agent_response st = true \/ In event (SUBSTANTIVE_EVENTS E)))
      \/
      (event = SESSION_STATE E /\
       exists s, lookup "content" c = Some (PStr s) /\
                 In s TERMINAL_STATES))).
Proof.
  intros Hd. rewrite handler_state. unfold handled.
  assert (Hsub : substantive E event = true <-> In event (SUBSTANTIVE_EVENTS E)).
  { unfold substantive. rewrite existsb_exists. split.
    - intros (x & Hin & Hx). apply String.eqb_eq in Hx. now subst.
    - intros Hin. exists event. split; [exact Hin|apply String.eqb_refl]. }
  destruct (session_filter sid event raw) as [ev|].
  2:{ rewrite Hd. split; [discriminate|]. intros (ev & c & [=] & _). }
  cbn [done]. rewrite Hd. cbn [orb]. unfold stop_signal.
  destruct (data ev) as [| | | | |c] eqn:Hdata.
  1-5: split; [discriminate|intros (ev' & c' & [= <-] & Hc & _); congruence].
  rewrite orb_true_iff, !andb_true_iff, orb_true_iff, Hsub, !String.eqb_eq.
  split.
  - intros [((He & Hw) & Hr)|(He & Ht)]; exists ev, c;
      (split; [reflexivity|]); (split; [exact Hdata|]).
    + left. repeat split; auto.
      unfold py_eq_str in Hw. destruct (item c "content"); try discriminate.
      apply String.eqb_eq in Hw. now subst.
    + right. split; [exact He|].
      destruct (lookup "content" c) as [[| | |s| |]|]; try discriminate.
      exists s. split; [reflexivity|].
      apply existsb_exists in Ht as (x & Hin & Hx).
      apply String.eqb_eq in Hx. now subst.
  - intros (ev' & c' & [= <-] & Hc & H). rewrite Hdata in Hc.
    injection Hc as <-.
    destruct H as [(He & Hw & Hr)|(He & s & Hs & Hin)].
    + left. rewrite Hw. cbn. auto.
    + right. split; [exact He|]. rewrite Hs.
      apply existsb_exists. exists s. split; [exact Hin|apply String.eqb_refl].
Qed.

Lemma handler_stops_exactly_when_witness :
  done (fst (handler wire "s1" (SESSION_STATE wire)
               (envelope (PStr "s1") (content "task_stale") (PDict []))
               fresh_state)) = true.
Proof.
  apply (handler_stops_exactly_when wire "s1" (SESSION_STATE wire)
           (envelope (PStr "s1") (content "task_stale") (PDict []))
           fresh_state eq_refl).
  eexists. exists [("content", PStr "task_stale")].
  split; [reflexivity|]. split; [reflexivity|].
  right. split; [reflexivity|]. exists "task_stale".
  split; [reflexivity|]. cbn. auto.
Defined.

(** ** More on the generator *)

Section MoreRuns.

Variable E : S2CEvent.
Variable self : ChatEngine.
Variable sid : string.
Variable skip : bool.

(** Draining and then iterating ends the generator normally once, having
    yielded what was queued and removed the observer. *)
Lemma drain_then_iterate (q : list (option ChatEvent)) :
  forall (st : ListenState) (n : nat),
    (length q <= n)%nat ->
    let r1 := drain_loop q st in
    let r2 := iterate E self sid skip n (fst r1) in
    at_pc (fst r2) = Finished None /\
    yields (snd r1 ++ snd r2) = pending q /\
    removes (snd r1 ++ snd r2) = 1%nat /\
    adds (snd r1 ++ snd r2) = 0%nat.
Proof.
  induction q as [|[e|] q IH]; intros st n Hn; cbn [drain_loop].
  - unfold finally. cbn [fst snd]. rewrite iterate_finished by reflexivity.
    repeat split.
  - destruct n as [|n]; [cbn in Hn; lia|].
    unfold suspend. cbn [fst snd iterate pull at_pc step vars].
    unfold drain. cbn [queue].
    specialize (IH (mkListenState q (done st) (received_agent_response st))
                  n ltac:(cbn in Hn; lia)).
    cbn zeta in IH.
    destruct (drain_loop q _) as [s1 a1]. cbn [fst snd] in IH |- *.
    destruct (iterate E self sid skip n s1) as [s2 a2].
    cbn [fst snd] in IH |- *.
    destruct IH as (H1 & H2 & H3 & H4).
    repeat split; auto.
    + cbn. unfold pending in *. cbn. f_equal. exact H2.
  - specialize (IH st n ltac:(cbn in Hn; lia)). exact IH.
Qed.

(** The silence of the agent after a substantive response ends the turn:
    when the timed [queue.get()] expires with
    [received_agent_response] set, the loop is left, what is still
    queued is yielded in order, the observer is removed and the
    generator ends normally. *)
Theorem response_idle_timeout_ends_turn (s : Listener) (t : Q) :
  at_pc s = AwaitGet t ->
  received_agent_response (vars s) = true ->
  let r1 := step E self sid skip s Timeout in
  let r2 := iterate E self sid skip (length (queue (vars s))) (fst r1) in
  at_pc (fst r2) = Finished None /\
  hd_error (snd r1 ++ snd r2) = Some (TimedOut t) /\
  yields (snd r1 ++ snd r2) = pending (queue (vars s)) /\
  removes (snd r1 ++ snd r2) = 1%nat.
Proof.
  intros Hpc Hr. destruct s as [p st rg]. cbn in Hpc, Hr. subst p.
  cbn [step at_pc vars]. unfold timed_out. rewrite Hr. unfold drain.
  pose proof (drain_then_iterate (queue st) st (length (queue st))
                (le_n _)) as K.
  cbn zeta in K.
  destruct (drain_loop (queue st) st) as [s1 a1]. cbn [fst snd] in *.
  destruct (iterate E self sid skip _ s1) as [s2 a2]. cbn [fst snd] in *.
  destruct K as (K1 & K2 & K3 & _). repeat split; auto.
Qed.

(** When the query of the timeout path reports a terminal state, the
    event built from it is yielded, then what is still queued, and the
    generator ends normally with the observer removed. *)
Theorem repoll_terminal_ends_listen (s : Listener)
  (d : list (string * pyval)) (state : string) :
  at_pc s = AwaitRepoll ->
  lookup "state" d = Some (PStr state) ->
  In state TERMINAL_STATES ->
  let r1 := step E self sid skip s (Answer (QReturn (PDict d))) in
  let r2 := iterate E self sid skip (S (length (queue (vars s)))) (fst r1) in
  at_pc (fst r2) = Finished None /\
  yields (snd r1 ++ snd r2)
  = Some (mkChatEvent (SESSION_STATE E) sid PNone
            (PDict [("content", PStr state)]) PNone)
    :: pending (queue (vars s)) /\
  removes (snd r1 ++ snd r2) = 1%nat.
Proof.
  intros Hpc Hs Hin. destruct s as [p st rg]. cbn in Hpc. subst p.
  assert (Ht : terminal_state (PDict d) = Ok (Some (PStr state))).
  { unfold terminal_state. cbn [py_get]. rewrite Hs. cbn [py_in].
    replace (existsb (String.eqb state) TERMINAL_STATES) with true;
      [reflexivity|].
    symmetry. apply existsb_exists. exists state.
    split; [exact Hin|apply String.eqb_refl]. }
  cbn [step at_pc vars]. unfold repolled. rewrite Ht. unfold suspend.
  cbn [fst snd iterate pull at_pc step vars]. unfold drain.
  pose proof (drain_then_iterate (queue st) st (length (queue st))
                (le_n _)) as K.
  cbn zeta in K.
  destruct (drain_loop (queue st) st) as [s1 a1]. cbn [fst snd] in *.
  destruct (iterate E self sid skip _ s1) as [s2 a2]. cbn [fst snd] in *.
  destruct K as (K1 & K2 & K3 & _). repeat split; auto.
  cbn. unfold state_event. f_equal. exact K2.
Qed.

(** An answer of the query that does not name a terminal state — no
    dict, no key [state], a state that is no terminal state or cannot be
    hashed — has the effect of a failed query. *)
Theorem malformed_answer_is_a_failure (s : Listener) (session : pyval)
  (e : exn) :
  (forall d state, session = PDict d ->
                   lookup "state" d = Some (PStr state) ->
                   ~ In state TERMINAL_STATES) ->
  step E self sid skip s (Answer (QReturn session))
  = step E self sid skip s (Answer (QRaise e)).
Proof.
  intros Hno.
  assert (Ht : forall v, terminal_state session <> Ok (Some v)).
  { intros v. unfold terminal_state.
    destruct session as [| | | | |d]; try discriminate. cbn [py_get].
    destruct (lookup "state" d) as [[| | |state| |]|] eqn:Hs;
      cbn -[existsb TERMINAL_STATES]; try discriminate.
    destruct (existsb _ _) eqn:Hx; [|discriminate].
    apply existsb_exists in Hx as (x & Hin & Hx).
    apply String.eqb_eq in Hx. subst x.
    now destruct (Hno d state eq_refl Hs). }
  destruct s as [p st rg].
  destruct p; cbn [step at_pc vars]; try reflexivity;
    unfold prechecked, repolled;
    destruct (terminal_state session) as [[v|]|]; try reflexivity;
    now destruct (Ht v).
Qed.

(** Once the generator is over nothing changes it any more: no later
    stimulus makes it yield or call the observer. *)
Theorem finished_is_final (xs ys : list stimulus) :
  finished (fst (_listen E self sid skip xs)) = true ->
  _listen E self sid skip (xs ++ ys) = _listen E self sid skip xs.
Proof.
  intros Hf. unfold _listen in *. rewrite run_app.
  pose proof (run_keeps E self sid skip xs initial [] (Inv_initial sid)) as HI.
  cbn [app] in HI.
  set (s := fst (run E self sid skip xs initial)) in *.
  assert (Hr : registered s = false).
  { destruct HI as [_ _ _ _ Hp]. unfold finished in Hf.
    destruct (at_pc s); try discriminate. tauto. }
  assert (K : run E self sid skip ys s = (s, [])).
  { induction ys as [|y ys IH]; [reflexivity|]. cbn [run].
    assert (Hs : step E self sid skip s y = (s, [])).
    { destruct s as [p st rg]. cbn in Hr. subst rg.
      unfold finished in Hf. cbn in Hf.
      destruct p; try discriminate.
      destruct y as [|[| |[]]|o|event raw| |]; reflexivity. }
    now rewrite Hs, IH. }
  rewrite K. cbn [fst snd]. rewrite app_nil_r.
  subst s. now destruct (run E self sid skip xs initial).
Qed.

End MoreRuns.

Lemma response_idle_timeout_ends_turn_witness :
  let text := Deliver (SESSION_TEXT wire)
                (envelope (PStr "s1") (content "Hi!") (PDict [])) in
  let log := Deliver "session:work_log"
               (envelope (PStr "s1") (content "step") (PDict [])) in
  let s := fst (_listen wire (engine false) "s1" true
                  [Next; text; Wake; Next; log]) in
  let r1 := step wire (engine false) "s1" true s Timeout in
  let r2 := iterate wire (engine false) "s1" true
              (length (queue (vars s))) (fst r1) in
  at_pc (fst r2) = Finished None.
Proof.
  intros text log s r1 r2.
  exact (proj1 (response_idle_timeout_ends_turn wire (engine false) "s1" true
                  s DEFAULT_RESPONSE_IDLE_TIMEOUT_S eq_refl eq_refl)).
Defined.

Lemma repoll_terminal_ends_listen_witness :
  let s := fst (_listen wire (engine true) "s1" true [Next; Timeout]) in
  let r1 := step wire (engine true) "s1" true s
              (Answer (QReturn (PDict [("state", PStr "task_cancelled")]))) in
  let r2 := iterate wire (engine true) "s1" true
              (S (length (queue (vars s)))) (fst r1) in
  at_pc (fst r2) = Finished None.
Proof.
  intros s r1 r2.
  exact (proj1 (repoll_terminal_ends_listen wire (engine true) "s1" true
                  s [("state", PStr "task_cancelled")] "task_cancelled"
                  eq_refl eq_refl (or_intror (or_introl eq_refl)))).
Defined.

Lemma malformed_answer_is_a_failure_witness :
  let s := fst (_listen wire (engine true) "s1" false [Next]) in
  step wire (engine true) "s1" false s (Answer (QReturn (PStr "task_finished")))
  = step wire (engine true) "s1" false s (Answer (QRaise AttributeError)).
Proof.
  intros s.
  apply (malformed_answer_is_a_failure wire (engine true) "s1" false s
           (PStr "task_finished") AttributeError).
  intros d state H. discriminate H.
Defined.

Lemma finished_is_final_witness :
  let xs := [Next; Throw GeneratorExit] in
  let late := [Deliver (SESSION_TEXT wire)
                 (envelope (PStr "s1") (content "Hi!") (PDict [])); Wake; Next] in
  _listen wire (engine false) "s1" true (xs ++ late)
  = _listen wire (engine false) "s1" true xs.
Proof.
  intros xs late.
  exact (finished_is_final wire (engine false) "s1" true xs late eq_refl).
Defined.

(** ** What a listen call never does *)

Section Never.

Variable E : S2CEvent.
Variable self : ChatEngine.
Variable sid : string.
Variable skip : bool.

Lemma drain_loop_shape (q : list (option ChatEvent)) (st : ListenState) :
  (at_pc (fst (drain_loop q st)) = Finished None \/
   at_pc (fst (drain_loop q st)) = YieldDrain) /\
  done (vars (fst (drain_loop q st))) = done st /\
  received_agent_response (vars (fst (drain_loop q st)))
  = received_agent_response st /\
  Forall (fun a => a = RemoveHandler \/ exists e, a = Yield AtDrain (Some e))
    (snd (drain_loop q st)).
Proof.
  induction q as [|[e|] q IH]; cbn [drain_loop].
  - cbn. repeat split; auto.
  - cbn. repeat split; eauto.
  - exact IH.
Qed.

Ltac open_step :=
  unfold begin, prechecked, enter_active, repolled, timed_out, dequeued,
    loop_head, drain, finally, suspend, stay in *.

Ltac use_drain :=
  match goal with
  | |- context [drain_loop ?q ?st] =>
      let K := fresh "K" in
      pose proof (drain_loop_shape q st) as K;
      destruct (drain_loop q st) as [? ?];
      cbn [fst snd] in K;
      destruct K as ([K|K] & ? & ? & ?); cbn [fst snd at_pc vars]
  end.

Lemma step_timeout_chosen (s : Listener) (x : stimulus) :
  timeout_chosen self s ->
  timeout_chosen self (fst (step E self sid skip s x)).
Proof.
  unfold timeout_chosen. intros H.
  destruct s as [p [q d r] rg].
  destruct x as [|[| |[]]|[session|e]|event raw| |]; destruct p;
    cbn [step at_pc vars fst] in *; auto; open_step;
    cbn [queue done received_agent_response] in *.
  all: try (destruct rg; cbn [fst at_pc vars]; auto).
  all: repeat match goal with
         | |- context [if ?b then _ else _] => destruct b eqn:?
         | |- context [match terminal_state ?s with _ => _ end] =>
             destruct (terminal_state s) as [[?|]|]
         | |- context [match ?l with [] => _ | _ :: _ => _ end] =>
             destruct l as [|[?|] ?]
         end; cbn [fst snd at_pc vars received_agent_response]; auto.
  all: try (use_drain; rewrite K; auto).
  (* an envelope delivered while waiting *)
  destruct H as [H|[H1 H2]]; auto. right. split; auto.
  pose proof (handler_keeps_flags E sid event raw (mkListenState q d r))
    as (_ & Hr).
  auto.
Qed.

(** Where each action of a step comes from. *)
Lemma step_emits (Q : action -> Prop) (s : Listener) (x : stimulus) :
  Q AddHandler -> Q RemoveHandler ->
  (forall site e, site = AtLoop \/ site = AtDrain ->
                  Q (Yield site (Some e))) ->
  (forall event raw, Q (Handled event raw)) ->
  (forall t, at_pc s = AwaitGet t -> Q (TimedOut t)) ->
  ((exists t, at_pc s = AwaitGet t) ->
   check_session_state self = true -> Q (Query sid)) ->
  (at_pc s = Start -> skip = false ->
   check_session_state self = true -> Q (Query sid)) ->
  (at_pc s = AwaitPrecheck ->
   forall v, Q (Yield AtPrecheck (Some (state_event E sid v)))) ->
  (at_pc s = AwaitRepoll ->
   forall v, Q (Yield AtRepoll (Some (state_event E sid v)))) ->
  Forall Q (snd (step E self sid skip s x)).
Proof.
  intros QA QR QY QH QT QQ QS QP QL.
  destruct s as [p [q d rc] rg].
  destruct x as [|[| |[]]|[session|e]|event raw| |]; destruct p;
    cbn [step at_pc vars fst snd] in *; open_step;
    cbn [queue done received_agent_response] in *;
    try (destruct rg; cbn [snd]);
    repeat match goal with
      | |- context [if ?b then _ else _] => destruct b eqn:?
      | |- context [match terminal_state ?s with _ => _ end] =>
          destruct (terminal_state s) as [[?|]|]
      | |- context [match ?l with [] => _ | _ :: _ => _ end] =>
          destruct l as [|[?|] ?]
      end; cbn [fst snd];
    try (use_drain);
    repeat first
      [ apply Forall_nil
      | apply Forall_cons
      | match goal with
        | HF : Forall _ ?l |- Forall _ ?l =>
            revert HF; apply Forall_impl;
            intros a [->|[ev ->]]; auto
        end ];
    eauto.
  all: try (apply QQ; now eauto).
  all: match goal with
       | H : negb skip && _ = true |- _ =>
           apply andb_true_iff in H; destruct H;
           apply QS; auto; destruct skip; [discriminate|reflexivity]
       end.
Qed.

(** From where the suspension points of the two queries are reached. *)
Lemma step_reaches (s : Listener) (x : stimulus) :
  (prechecking (at_pc (fst (step E self sid skip s x))) = true ->
   prechecking (at_pc s) = true \/
   (at_pc s = Start /\ skip = false /\ check_session_state self = true))
  /\
  (repolling (at_pc (fst (step E self sid skip s x))) = true ->
   repolling (at_pc s) = true \/
   ((exists t, at_pc s = AwaitGet t) /\ check_session_state self = true)).
Proof.
  destruct s as [p [q d rc] rg].
  destruct x as [|[| |[]]|[session|e]|event raw| |]; destruct p;
    cbn [step at_pc vars fst snd] in *; open_step;
    cbn [queue done received_agent_response] in *;
    try (destruct rg; cbn [fst]);
    repeat match goal with
      | |- context [if ?b then _ else _] => destruct b eqn:?
      | |- context [match terminal_state ?s with _ => _ end] =>
          destruct (terminal_state s) as [[?|]|]
      | |- context [match ?l with [] => _ | _ :: _ => _ end] =>
          destruct l as [|[?|] ?]
      end; cbn [fst snd at_pc];
    try (use_drain; rewrite K);
    cbn [prechecking repolling];
    split; intros; try discriminate; eauto.
  all: try match goal with
           | H : negb ?a && ?c = true |- _ =>
               apply andb_true_iff in H; destruct H;
               destruct a; try discriminate
           end; eauto 6.
Qed.

(** The short timeout is armed only behind a substantive response: a
    pending [queue.get()] has the idle timeout, or the response-idle
    timeout with [received_agent_response] set, and no other timeout ever
    expires. *)
Theorem short_timeout_needs_response (xs : list stimulus) :
  let r := _listen E self sid skip xs in
  timeout_chosen self (fst r) /\
  Forall (fun a => match a with
                   | TimedOut t =>
                       t = idle_timeout_s self \/
                       t = response_idle_timeout_s self
                   | _ => True
                   end) (snd r).
Proof.
  unfold _listen.
  assert (G : forall xs s, timeout_chosen self s ->
              timeout_chosen self (fst (run E self sid skip xs s)) /\
              Forall (fun a => match a with
                               | TimedOut t =>
                                   t = idle_timeout_s self \/
                                   t = response_idle_timeout_s self
                               | _ => True
                               end) (snd (run E self sid skip xs s))).
  { clear xs. induction xs as [|x xs IH]; intros s Hs; cbn [run].
    - split; [exact Hs|constructor].
    - pose proof (step_timeout_chosen s x Hs) as K.
      assert (A : Forall (fun a => match a with
                                   | TimedOut t =>
                                       t = idle_timeout_s self \/
                                       t = response_idle_timeout_s self
                                   | _ => True
                                   end) (snd (step E self sid skip s x))).
      { apply step_emits; try exact I; auto.
        intros t Ht. unfold timeout_chosen in Hs. rewrite Ht in Hs. tauto. }
      destruct (step E self sid skip s x) as [s1 a1]. cbn [fst snd] in *.
      destruct (IH s1 K) as (I1 & I2).
      destruct (run E self sid skip xs s1) as [s2 a2]. cbn [fst snd] in *.
      split; [exact I1|]. apply Forall_app. split; assumption. }
  apply G. exact I.
Qed.


(** Without a query collaborator a listen call never queries and never
    yields an event of its own making: whatever it yields came through
    the observer. *)
Theorem no_collaborator_no_query (xs : list stimulus) :
  check_session_state self = false ->
  let r := _listen E self sid skip xs in
  Forall (fun a => from_query a = false) (snd r) /\
  yields (snd r) = observer_yields (snd r) /\
  prechecking (at_pc (fst r)) = false /\
  repolling (at_pc (fst r)) = false.
Proof.
  intros Hc. unfold _listen.
  assert (G : forall xs s,
              prechecking (at_pc s) = false ->
              repolling (at_pc s) = false ->
              Forall (fun a => from_query a = false)
                (snd (run E self sid skip xs s)) /\
              prechecking (at_pc (fst (run E self sid skip xs s))) = false /\
              repolling (at_pc (fst (run E self sid skip xs s))) = false).
  { clear xs. induction xs as [|x xs IH]; intros s Hp Hr; cbn [run].
    - repeat split; auto.
    - pose proof (step_reaches s x) as (R1 & R2).
      assert (A : Forall (fun a => from_query a = false)
                    (snd (step E self sid skip s x))).
      { apply step_emits; try reflexivity; try congruence.
        - now intros site e [->| ->].
        - intros H. rewrite H in Hp. discriminate.
        - intros H. rewrite H in Hr. discriminate. }
      destruct (step E self sid skip s x) as [s1 a1]. cbn [fst snd] in *.
      assert (Hp1 : prechecking (at_pc s1) = false).
      { destruct (prechecking (at_pc s1)); [|reflexivity].
        destruct (R1 eq_refl) as [H|(_ & _ & H)]; congruence. }
      assert (Hr1 : repolling (at_pc s1) = false).
      { destruct (repolling (at_pc s1)); [|reflexivity].
        destruct (R2 eq_refl) as [H|(_ & H)]; congruence. }
      destruct (IH s1 Hp1 Hr1) as (I1 & I2 & I3).
      destruct (run E self sid skip xs s1) as [s2 a2]. cbn [fst snd] in *.
      repeat split; auto. apply Forall_app. split; assumption. }
  destruct (G xs initial eq_refl eq_refl) as (G1 & G2 & G3).
  repeat split; auto.
  revert G1. generalize (snd (run E self sid skip xs initial)).
  induction l as [|a l IHl]; intros HF; [reflexivity|].
  inversion HF as [|? ? Ha Hl]; subst. specialize (IHl Hl).
  destruct a as [[| | |] v| | | | |]; cbn in *; try discriminate;
    try exact IHl; now f_equal.
Qed.

(** With the precheck skipped, as [chat] asks for, a listen call never
    yields the event of the precheck and is never suspended in it; the
    collaborator is only asked behind a timeout. *)
Theorem skipped_precheck_never_runs (xs : list stimulus) :
  skip = true ->
  let r := _listen E self sid skip xs in
  Forall (fun a => from_precheck a = false) (snd r) /\
  prechecking (at_pc (fst r)) = false.
Proof.
  intros Hk. unfold _listen.
  assert (G : forall xs s,
              prechecking (at_pc s) = false ->
              Forall (fun a => from_precheck a = false)
                (snd (run E self sid skip xs s)) /\
              prechecking (at_pc (fst (run E self sid skip xs s))) = false).
  { clear xs. induction xs as [|x xs IH]; intros s Hp; cbn [run].
    - repeat split; auto.
    - pose proof (step_reaches s x) as (R1 & _).
      assert (A : Forall (fun a => from_precheck a = false)
                    (snd (step E self sid skip s x))).
      { apply step_emits; try reflexivity.
        - now intros site e [->| ->].
        - intros H. rewrite H in Hp. discriminate. }
      destruct (step E self sid skip s x) as [s1 a1]. cbn [fst snd] in *.
      assert (Hp1 : prechecking (at_pc s1) = false).
      { destruct (prechecking (at_pc s1)); [|reflexivity].
        destruct (R1 eq_refl) as [H|(_ & H & _)]; congruence. }
      destruct (IH s1 Hp1) as (I1 & I2).
      destruct (run E self sid skip xs s1) as [s2 a2]. cbn [fst snd] in *.
      split; auto. apply Forall_app. split; assumption. }
  exact (G xs initial eq_refl).
Qed.

Lemma step_flags (s : Listener) (l : list action) (x : stimulus) :
  Inv sid s l ->
  (done (vars s) = true ->
   done (vars (fst (step E self sid skip s x))) = true) /\
  (received_agent_response (vars s) = true ->
   received_agent_response (vars (fst (step E self sid skip s x))) = true).
Proof.
  intros HI. destruct HI as [_ _ _ _ Hp].
  destruct s as [p [q d rc] rg]. cbn [at_pc vars registered] in Hp.
  assert (Hfresh : prechecking p = true \/ p = Start ->
                   d = false /\ rc = false).
  { intros [H|H]; destruct p; try discriminate;
      destruct Hp as (_ & [= -> -> ->] & _); auto. }
  destruct x as [|[| |[]]|[session|e]|event raw| |]; destruct p;
    cbn [step at_pc vars fst snd] in *; open_step;
    cbn [queue done received_agent_response] in *;
    try (destruct (Hfresh ltac:(auto)) as [-> ->]);
    try (split; intros; discriminate);
    try (destruct rg; cbn [fst]);
    repeat match goal with
      | |- context [if ?b then _ else _] => destruct b eqn:?
      | |- context [match terminal_state ?s with _ => _ end] =>
          destruct (terminal_state s) as [[?|]|]
      | |- context [match ?l with [] => _ | _ :: _ => _ end] =>
          destruct l as [|[?|] ?]
      end; cbn [fst snd at_pc vars done received_agent_response];
    try (use_drain; cbn [done received_agent_response] in *);
    try (split; intros; congruence).
  all: pose proof (handler_keeps_flags E sid event raw
                     (mkListenState q d rc)) as (H1 & H2);
    cbn [done received_agent_response] in *; auto.
Qed.

(** Within a listen call the two flags are only ever set: once [done] or
    [received_agent_response] holds, it holds for the rest of the call. *)
Theorem flags_are_never_cleared (xs ys : list stimulus) :
  (done (vars (fst (_listen E self sid skip xs))) = true ->
   done (vars (fst (_listen E self sid skip (xs ++ ys)))) = true) /\
  (received_agent_response (vars (fst (_listen E self sid skip xs))) = true ->
   received_agent_response
     (vars (fst (_listen E self sid skip (xs ++ ys)))) = true).
Proof.
  unfold _listen. rewrite run_app. cbn [fst].
  pose proof (run_keeps E self sid skip xs initial [] (Inv_initial sid)) as HI.
  cbn [app] in HI. revert HI.
  generalize (snd (run E self sid skip xs initial)).
  generalize (fst (run E self sid skip xs initial)).
  induction ys as [|y ys IH]; intros s l HI; [cbn; auto|].
  cbn [run].
  pose proof (step_flags s l y HI) as (F1 & F2).
  pose proof (step_keeps E self sid skip s l y HI) as K.
  destruct (step E self sid skip s y) as [s1 a1]. cbn [fst snd] in *.
  specialize (IH s1 _ K).
  destruct (run E self sid skip ys s1) as [s2 a2]. cbn [fst snd] in *.
  tauto.
Qed.

End Never.

Lemma no_collaborator_no_query_witness :
  let xs := [Next; Timeout;
             Deliver (SESSION_TEXT wire)
               (envelope (PStr "s1") (content "Hi!") (PDict []));
             Wake; Next; Timeout] in
  yields (snd (_listen wire (engine false) "s1" false xs))
  = observer_yields (snd (_listen wire (engine false) "s1" false xs)).
Proof.
  intros xs.
  exact (proj1 (proj2 (no_collaborator_no_query wire (engine false) "s1" false
                         xs eq_refl))).
Defined.

Lemma skipped_precheck_never_runs_witness :
  prechecking
    (at_pc (fst (_listen wire (engine true) "s1" true
                   [Next; Answer (QReturn
                                    (PDict [("state", PStr "task_finished")]))])))
  = false.
Proof.
  exact (proj2 (skipped_precheck_never_runs wire (engine true) "s1" true
                  [Next; Answer (QReturn
                                   (PDict [("state", PStr "task_finished")]))]
                  eq_refl)).
Defined.

(** ** The grace window of chat *)

(** [chat] drops an event with a time-zone aware timestamp exactly when
    its instant lies more than five seconds before the call. *)
Theorem chat_grace_window (fromisoformat : string -> option datetime)
  (event : ChatEvent) (d : list (string * pyval)) (ts : string)
  (event_ts : datetime) (offset now : Z) :
  metadata event = PDict d ->
  item d "timestamp" = PStr ts -> ts <> "" ->
  fromisoformat (replace_Z ts) = Some event_ts ->
  utcoffset event_ts = Some offset ->
  _is_stale_event fromisoformat event (chat_cutoff now)
  = Ok (wall event_ts - offset <? now - 5000000)%Z.
Proof.
  intros Hm Ht Hne Hp Ho. unfold _is_stale_event. rewrite Hm.
  cbn [is_dict negb py_get]. fold (item d "timestamp"). rewrite Ht.
  cbn [truthy]. apply String.eqb_neq in Hne. rewrite Hne. cbn [negb].
  unfold stale_try. cbn [py_replace_Z]. rewrite Hp.
  unfold dt_lt, chat_cutoff. rewrite Ho. cbn [utcoffset wall].
  now rewrite Z.sub_0_r.
Qed.

Lemma chat_grace_window_witness :
  let parse (s : string) :=
    if s =? "2026-02-21T10:00:00+00:00"
    then Some {| wall := 100000000; utcoffset := Some 0%Z |} else None in
  let event := mkChatEvent "session:text" "s1" PNone (PDict [])
                 (PDict [("timestamp", PStr "2026-02-21T10:00:00Z")]) in
  _is_stale_event parse event (chat_cutoff 104000000) = Ok false.
Proof.
  intros parse event.
  exact (chat_grace_window parse event
           [("timestamp", PStr "2026-02-21T10:00:00Z")]
           "2026-02-21T10:00:00Z"
           {| wall := 100000000; utcoffset := Some 0%Z |} 0 104000000
           eq_refl eq_refl ltac:(discriminate) eq_refl eq_refl).
Defined.

(** ** The outbound message *)

(** The payload has the key [action] exactly when an action was given: it
    is left out for [None] and kept for any other value, an empty dict
    included; the four other keys are always there, in this order. *)
Theorem build_message_action (client_now_date content : string)
  (attachments referenced_sessions action : pyval) :
  let d := _build_message_data client_now_date content attachments
             referenced_sessions action in
  lookup "action" d = (if is_none action then None else Some action) /\
  map fst d
  = ["content"; "attachments"; "referenced_sessions"; "client_now_date"]
    ++ (if is_none action then [] else ["action"]) /\
  lookup "content" d = Some (PStr content) /\
  lookup "client_now_date" d = Some (PStr client_now_date).
Proof.
  destruct action; repeat split.
Qed.

(** Attachments and referenced sessions left out and given as empty lists
    build the same payload, and a list that is given is sent as it is: the
    two fields are lists in every payload built from lists. *)
Theorem build_message_defaults (client_now_date content : string)
  (action : pyval) (l1 l2 : list pyval) :
  _build_message_data client_now_date content PNone PNone action
  = _build_message_data client_now_date content (PList []) (PList []) action
  /\
  lookup "attachments"
    (_build_message_data client_now_date content (PList l1) (PList l2) action)
  = Some (PList l1) /\
  lookup "referenced_sessions"
    (_build_message_data client_now_date content (PList l1) (PList l2) action)
  = Some (PList l2).
Proof.
  destruct action, l1, l2; repeat split.
Qed.
